(** * Oberheim Matrix 1000 SysEx driver: codec, classifier, request builders

    A shallow embedding of [Matrix1000.cpp] (nibble codec, message
    classification, request construction, bank-dump completion and the
    global-settings table) together with the properties its specification
    states about it.

    Conventions:
    - a [uint8] is a [Z] in [0, 256); every conversion to [uint8] that the
      C++ performs is written out with [uint8];
    - an [int] is a [Z].  The only accumulating [int] is the checksum of
      [escapeSysex], which stays far below 2^31 for any buffer smaller
      than 8 MiB, so no wrap-around is modelled for it;
    - [jassert] and the logger are effects: they are recorded in a trace
      and execution continues, as it does in the program. *)

From Stdlib Require Import String.
From Stdlib Require Import ZArith List Bool Lia Permutation.
Import ListNotations.
Local Open Scope Z_scope.

(* ================================================================== *)
(** ** Machine integers *)

Definition uint8 (x : Z) : Z := x mod 256.

(** The conversion [(int8) x]: the value is reduced modulo 2^8 into
    [-128, 128). *)
Definition int8 (x : Z) : Z := (x + 128) mod 256 - 128.

Definition is_uint8 (x : Z) : Prop := 0 <= x < 256.

Definition PatchData := list Z.

(* ================================================================== *)
(** ** Outcomes of code that indexes raw buffers

    [sysExData[i]] and [vector::operator[]] are unchecked in C++.  The
    embedding reads through [readAt], and an access outside the buffer
    ends the computation in [OutOfBounds i].  [OutOfFuel] is what a loop
    of the model answers when its iteration budget is used up; it is
    shown below that [unescapeSysex] never does. *)

Inductive Outcome (A : Type) : Type :=
| Returned (a : A)
| OutOfBounds (index : Z)
| OutOfFuel.

Arguments Returned {A} a.
Arguments OutOfBounds {A} index.
Arguments OutOfFuel {A}.

Definition bindO {A B : Type} (o : Outcome A) (k : A -> Outcome B) : Outcome B :=
  match o with
  | Returned a => k a
  | OutOfBounds i => OutOfBounds i
  | OutOfFuel => OutOfFuel
  end.

Definition readAt (buffer : list Z) (index : Z) : Outcome Z :=
  if index <? 0 then OutOfBounds index
  else match nth_error buffer (Z.to_nat index) with
       | Some b => Returned b
       | None => OutOfBounds index
       end.

Declare Scope outcome_scope.
Delimit Scope outcome_scope with outcome.
Notation "x <- o ;; k" := (bindO o (fun x => k))
  (at level 61, o at next level, right associativity) : outcome_scope.

(* ================================================================== *)
(** ** Debug assertions and log messages

    [jassert (c)] reports a failed assertion when [c] is false and then
    goes on; [SimpleLogger::postMessage] appends a line to the log. *)

Inductive Event : Type :=
| AssertionFailed
| LogMessage (text : string).

Definition Traced (A : Type) : Type := (A * list Event)%type.

Definition ret {A : Type} (a : A) : Traced A := (a, []).

Definition bindT {A B : Type} (m : Traced A) (k : A -> Traced B) : Traced B :=
  let (a, t1) := m in
  let (b, t2) := k a in
  (b, t1 ++ t2).

Definition jassert (condition : bool) : Traced unit :=
  (tt, if condition then [] else [AssertionFailed]).

Definition postMessage (text : string) : Traced unit :=
  (tt, [LogMessage text]).

Definition returned {A : Type} (m : Traced A) : A := fst m.
Definition trace {A : Type} (m : Traced A) : list Event := snd m.

Declare Scope traced_scope.
Delimit Scope traced_scope with traced.
Notation "x <- m ;; k" := (bindT m (fun x => k))
  (at level 61, m at next level, right associativity) : traced_scope.
Notation "m ;;; k" := (bindT m (fun _ => k))
  (at level 61, right associativity) : traced_scope.

(* ================================================================== *)
(** ** MIDI messages and numbers (types of the host framework) *)

(** Modelled from the spec: [juce::MidiMessage] is declared outside this
    repository.  A message is either a SysEx message, given by its payload
    with the 0xF0/0xF7 framing stripped, or some other MIDI message. *)
Inductive MidiMessage : Type :=
| SysExMessage (sysExData : list Z)
| OtherMessage (rawData : list Z).

Definition isSysEx (message : MidiMessage) : bool :=
  match message with SysExMessage _ => true | OtherMessage _ => false end.

Definition getSysExData (message : MidiMessage) : list Z :=
  match message with SysExMessage d => d | OtherMessage _ => [] end.

Definition getSysExDataSize (message : MidiMessage) : Z :=
  Z.of_nat (length (getSysExData message)).

(** Modelled from the spec: the default constructor [MidiMessage()] belongs
    to the host framework, which documents it as building an empty SysEx
    message; the specification does not describe it. *)
Definition defaultMidiMessage : MidiMessage := SysExMessage [].

(** Modelled from the spec: [MidiHelpers::sysexMessage] wraps the given
    bytes as the payload of one SysEx message. *)
Definition sysexMessage (bytes : list Z) : MidiMessage := SysExMessage bytes.

(** Modelled from the spec: [MidiBankNumber] is declared outside this
    repository; it is a zero-based bank index or the invalid bank. *)
Record MidiBankNumber : Type := mkMidiBankNumber {
  bankNo_ : Z;
  isValid : bool
}.

Definition fromZeroBase (zeroBasedNumber : Z) : MidiBankNumber :=
  mkMidiBankNumber zeroBasedNumber true.
Definition invalidBank : MidiBankNumber := mkMidiBankNumber (-1) false.
Definition toZeroBased (bankNo : MidiBankNumber) : Z := bankNo_ bankNo.

(* ================================================================== *)
(** ** Protocol constants *)

Definition OBERHEIM : Z := 0x10.
Definition MATRIX6_1000 : Z := 0x06.

Definition SINGLE_PATCH_DATA : Z := 0x01.
Definition REQUEST_DATA : Z := 0x04.
Definition SET_BANK : Z := 0x0a.
Definition PARAMETER_EDIT : Z := 0x0b.
Definition BANK_UNLOCK : Z := 0x0c.
Definition SINGLE_PATCH_TO_EDIT_BUFFER : Z := 0x0d.
Definition STORE_EDIT_BUFFER : Z := 0x0e.

Inductive REQUEST_TYPE : Type :=
| BANK_AND_MASTER
| SINGLE_PATCH
| MASTER
| EDIT_BUFFER.

Definition requestTypeCode (typeNo : REQUEST_TYPE) : Z :=
  match typeNo with
  | BANK_AND_MASTER => 0x00
  | SINGLE_PATCH => 0x01
  | MASTER => 0x03
  | EDIT_BUFFER => 0x04
  end.

Definition isSinglePatch (typeNo : REQUEST_TYPE) : bool :=
  match typeNo with SINGLE_PATCH => true | _ => false end.

Definition numberOfBanks : Z := 10.
Definition numberOfPatches : Z := 100.

(* ================================================================== *)
(** ** Nibble codec *)

(** One pass of the loop of [unescapeSysex], from the loop test on.
    [fuel] bounds the number of iterations. *)
Fixpoint unescapeLoop (fuel : nat) (sysExData : list Z) (sysExLen : Z)
    (index checksum : Z) (result : PatchData) : Outcome PatchData :=
  if index <? sysExLen then
    match fuel with
    | O => OutOfFuel
    | S fuel' =>
        (lo <- readAt sysExData index ;;
         hi <- readAt sysExData (index + 1) ;;
         let byte := uint8 (Z.lor lo (Z.shiftl hi 4)) in
         let result := result ++ [byte] in
         let checksum := uint8 (checksum + byte) in
         let index := index + 2 in
         if index =? sysExLen - 1 then
           (c <- readAt sysExData index ;;
            if negb (c =? Z.land checksum 0x7f) then Returned []
            else unescapeLoop fuel' sysExData sysExLen (index + 1) checksum result)
         else unescapeLoop fuel' sysExData sysExLen index checksum result)%outcome
    end
  else Returned result.

(** [unescapeSysex (sysExData, sysExLen)]: the buffer is the list, and
    [sysExLen] its length.  Every iteration advances [index] by at least
    two, so [length sysExData] iterations always suffice. *)
Definition unescapeSysex (sysExData : list Z) : Outcome PatchData :=
  let sysExLen := Z.of_nat (length sysExData) in
  unescapeLoop (length sysExData) sysExData sysExLen 0 0 [].

Fixpoint escapeLoop (programEditBuffer : list Z) (checksum : Z)
    (result : list Z) : list Z :=
  match programEditBuffer with
  | [] => result ++ [uint8 (Z.land checksum 0x7f)]
  | b :: rest =>
      escapeLoop rest (checksum + b)
        (result ++ [uint8 (Z.land b 0x0f); uint8 (Z.shiftr (Z.land b 0xf0) 4)])
  end.

Definition escapeSysex (programEditBuffer : PatchData) : list Z :=
  escapeLoop programEditBuffer 0 [].

(* ================================================================== *)
(** ** Message classification

    The C++ conjunctions are short-circuiting: a byte is read only after
    the size test before it succeeded.  [byteAt] is therefore only ever
    evaluated inside the payload where the result matters. *)

Definition byteAt (data : list Z) (i : nat) : Z := nth i data 0.

Definition isOwnSysex (message : MidiMessage) : bool :=
  isSysEx message
  && (getSysExDataSize message >? 1)
  && (byteAt (getSysExData message) 0 =? OBERHEIM)
  && (byteAt (getSysExData message) 1 =? MATRIX6_1000).

Definition isEditBufferDump (message : MidiMessage) : bool :=
  isOwnSysex message
  && (getSysExDataSize message >? 3)
  && (byteAt (getSysExData message) 2 =? SINGLE_PATCH_DATA)
  && (byteAt (getSysExData message) 3 =? 0x00).

Definition isSingleProgramDump (message : MidiMessage) : bool :=
  isOwnSysex message
  && (getSysExDataSize message >? 3)
  && (byteAt (getSysExData message) 2 =? SINGLE_PATCH_DATA)
  && (byteAt (getSysExData message) 3 >=? 0x00)
  && (byteAt (getSysExData message) 3 <? 100).

Definition isBankDump (message : MidiMessage) : bool :=
  isSingleProgramDump message.

(** The counting loop of [isBankDumpFinished]. *)
Fixpoint countPatchDumps (bankDump : list MidiMessage) (found : Z) : Z :=
  match bankDump with
  | [] => found
  | message :: rest =>
      countPatchDumps rest (if isSingleProgramDump message then found + 1 else found)
  end.

Definition isBankDumpFinished (bankDump : list MidiMessage) : bool :=
  countPatchDumps bankDump 0 =? numberOfPatches.

(* ================================================================== *)
(** ** Request builders *)

Definition createRequest (typeNo : REQUEST_TYPE) (number : Z) : MidiMessage :=
  sysexMessage [OBERHEIM; MATRIX6_1000; REQUEST_DATA;
                uint8 (requestTypeCode typeNo);
                uint8 (if isSinglePatch typeNo then number else 0)].

Definition requestEditBufferDump : MidiMessage := createRequest EDIT_BUFFER 0x00.

Definition createBankSelect (bankNo : MidiBankNumber) : Traced MidiMessage :=
  if negb (isValid bankNo) then
    (jassert false ;;; ret defaultMidiMessage)%traced
  else
    ret (sysexMessage [OBERHEIM; MATRIX6_1000; SET_BANK; uint8 (toZeroBased bankNo)]).

Definition createBankUnlock : MidiMessage :=
  sysexMessage [OBERHEIM; MATRIX6_1000; BANK_UNLOCK].

Definition requestBankDump (bankNo : MidiBankNumber) : Traced (list MidiMessage) :=
  if negb (isValid bankNo) then ret []
  else (select <- createBankSelect bankNo ;;
        ret [select; createRequest BANK_AND_MASTER 0])%traced.

(** [programNumber / 100] and [programNumber % 100] on C++ [int]s truncate
    towards zero: [Z.quot] and [Z.rem]. *)
Definition saveEditBufferToProgram (programNumber : Z) : Traced MidiMessage :=
  (jassert ((programNumber >=? 0) && (programNumber <? 1000)) ;;;
   let bank := uint8 (Z.quot programNumber 100) in
   let num := uint8 (Z.rem programNumber 100) in
   ret (sysexMessage [OBERHEIM; MATRIX6_1000; STORE_EDIT_BUFFER; num; bank; 0]))%traced.

Definition requestPatch (programNumber : Z) : Traced (list MidiMessage) :=
  (jassert ((programNumber >=? 0) && (programNumber <? 1000)) ;;;
   let bank := uint8 (Z.quot programNumber 100) in
   select <- createBankSelect (fromZeroBase bank) ;;
   ret [select; createBankUnlock; createRequest SINGLE_PATCH (uint8 programNumber)])%traced.

Definition deviceDetect (channel : Z) : MidiMessage :=
  SysExMessage [0x7e; uint8 channel; 0x06; 0x01].

(* ================================================================== *)
(** ** Patches *)

(** A [Matrix1000Patch] holds the unpacked patch bytes and its program
    place; [None] is the place of a patch built without one. *)
Record Matrix1000Patch : Type := mkMatrix1000Patch {
  data : PatchData;
  number_ : option Z
}.

Definition newMatrix1000Patch (patchdata : PatchData) : Matrix1000Patch :=
  mkMatrix1000Patch patchdata None.

Definition setPatchNumber (patch : Matrix1000Patch) (patchNumber : Z) : Matrix1000Patch :=
  mkMatrix1000Patch (data patch) (Some patchNumber).

Definition patchFromSysex (message : MidiMessage) : Traced (Outcome Matrix1000Patch) :=
  if negb (isEditBufferDump message) then
    (jassert false ;;; ret (Returned (newMatrix1000Patch [])))%traced
  else
    let startOfData := skipn 4 (getSysExData message) in
    ret (unescaped <- unescapeSysex startOfData ;;
         Returned (newMatrix1000Patch unescaped))%outcome.

(** A null [shared_ptr] is [None]. *)
Definition patchFromProgramDumpSysex (message : MidiMessage)
    : Outcome (option Matrix1000Patch) :=
  if isSingleProgramDump message then
    (unescaped <- unescapeSysex (skipn 4 (getSysExData message)) ;;
     Returned (Some (setPatchNumber (newMatrix1000Patch unescaped)
                                    (byteAt (getSysExData message) 3))))%outcome
  else Returned None.

Definition patchToSysex (patch : Matrix1000Patch) : list MidiMessage :=
  [sysexMessage ([OBERHEIM; MATRIX6_1000; SINGLE_PATCH_TO_EDIT_BUFFER; 0x00]
                 ++ escapeSysex (data patch))].

(* ================================================================== *)
(** ** Global settings *)

Inductive ValueType : Type :=
| Integer
| Bool
| Lookup.

(** Modelled from the spec: [TypedNamedValue] is declared outside this
    repository; its fields are read off the initialisers of the table.
    A freshly built [Value()] holds nothing: [None]. *)
Record TypedNamedValue : Type := mkTypedNamedValue {
  name : string;
  sectionName : string;
  value : option Z;
  valueType : ValueType;
  minValue : Z;
  maxValue : Z;
  lookup : list (Z * string)
}.

Record Matrix1000GlobalSettingDefinition : Type := mkSetting {
  sysexIndex : Z;
  typedNamedValue : TypedNamedValue;
  isTwosComplement : bool;
  displayOffset : Z
}.

Local Open Scope string_scope.

Definition tnv (n s : string) (t : ValueType) (lo hi : Z) : TypedNamedValue :=
  mkTypedNamedValue n s None t lo hi [].

Definition tnvLookup (n s : string) (lo hi : Z) (table : list (Z * string))
    : TypedNamedValue :=
  mkTypedNamedValue n s None Lookup lo hi table.

(** Members left out of a row's initialiser are zero: [false] and [0]. *)
Definition kMatrix1000GlobalSettings : list Matrix1000GlobalSettingDefinition :=
  [ mkSetting 34 (tnv "Master Transpose" "Tuning" Integer (-24) 24) true 0;
    mkSetting 8 (tnv "Master Tune" "Tuning" Integer (-32) 32) true 0;
    mkSetting 11 (tnv "MIDI Basic Channel" "MIDI" Integer 1 16) false 1;
    mkSetting 12 (tnv "MIDI OMNI Mode Enable" "MIDI" Bool 0 1) false 0;
    mkSetting 13 (tnv "MIDI Controllers enable" "MIDI" Bool 0 1) false 0;
    mkSetting 14 (tnv "MIDI Patch Changes Enable" "MIDI" Bool 0 1) false 0;
    mkSetting 17 (tnv "MIDI Pedal 1 Controller" "MIDI" Integer 0 121) false 0;
    mkSetting 18 (tnv "MIDI Pedal 2 Controller" "MIDI" Integer 0 121) false 0;
    mkSetting 19 (tnv "MIDI Pedal 3 Controller" "MIDI" Integer 0 121) false 0;
    mkSetting 20 (tnv "MIDI Pedal 4 Controller" "MIDI" Integer 0 121) false 0;
    mkSetting 32 (tnv "MIDI Echo Enable" "MIDI" Bool 0 1) false 0;
    mkSetting 35 (tnv "MIDI Mono Mode (Guitar)" "MIDI" Integer 0 9) false 0;
    mkSetting 165 (tnv "Bank Lock Enable" "MIDI" Bool 0 1) false 0;
    mkSetting 4 (tnvLookup "Vibrato Waveform" "Global Vibrato" 0 7
                   [(0, "Triangle"); (1, "Saw up"); (2, "Saw Down");
                    (3, "Square"); (4, "Random"); (5, "Noise")]) false 0;
    mkSetting 1 (tnv "Vibrato Speed" "Global Vibrato" Integer 0 63) false 0;
    mkSetting 5 (tnv "Vibrato Amplitude" "Global Vibrato" Integer 0 63) false 0;
    mkSetting 2 (tnvLookup "Vibrato Speed Mod Source" "Global Vibrato" 0 2
                   [(0, "Off"); (1, "Lever 2"); (2, "Pedal 1")]) false 0;
    mkSetting 3 (tnv "Vibrato Speed Mod Amount" "Global Vibrato" Integer 0 63) false 0;
    mkSetting 6 (tnvLookup "Vibrato Amp Mod Source" "Global Vibrato" 0 2
                   [(0, "Off"); (1, "Lever 2"); (2, "Pedal 1")]) false 0;
    mkSetting 7 (tnv "Vibrato Amp Mod Amount" "Global Vibrato" Integer 0 63) false 0;
    mkSetting 164 (tnv "Bend Range" "Controls" Integer 1 24) false 0;
    mkSetting 166 (tnv "Number of Units" "Group Mode" Integer 1 6) false 0;
    mkSetting 167 (tnv "Current Unit Number" "Group Mode" Integer 0 7) false 0;
    mkSetting 168 (tnv "Group Mode Enable" "Group Mode" Bool 0 1) false 0;
    mkSetting 169 (tnv "Unison Enable" "General" Bool 0 1) false 0;
    mkSetting 170 (tnv "Volume Invert Enable" "General" Bool 0 1) false 0;
    mkSetting 171 (tnv "Memory Protect Enable" "General" Bool 0 1) false 0 ].

Local Close Scope string_scope.

(** [initGlobalSettings]: one property per row of the table, in order. *)
Definition initGlobalSettings : list TypedNamedValue :=
  map typedNamedValue kMatrix1000GlobalSettings.

Definition setValue (setting : TypedNamedValue) (v : Z) : TypedNamedValue :=
  mkTypedNamedValue (name setting) (sectionName setting) (Some v)
    (valueType setting) (minValue setting) (maxValue setting) (lookup setting).

(** [globalSettings_[i]->value.setValue (v)]; the subscript is unchecked. *)
Fixpoint setValueAt (globalSettings_ : list TypedNamedValue) (i : nat) (v : Z)
    : Outcome (list TypedNamedValue) :=
  match globalSettings_, i with
  | [], _ => OutOfBounds (Z.of_nat i)
  | s :: rest, O => Returned (setValue s v :: rest)
  | s :: rest, S i' =>
      (rest' <- setValueAt rest i' v ;; Returned (s :: rest'))%outcome
  end.

(** The value computed for one row from the byte [b] read at its
    [sysexIndex]: the display offset is added, and a two's complement row
    reinterprets a result above 127 as [int8]. *)
Definition intValueOf (row : Matrix1000GlobalSettingDefinition) (b : Z) : Z :=
  let intValue := b + displayOffset row in
  if isTwosComplement row
  then (if intValue >? 127 then int8 intValue else intValue)
  else intValue.

(** The [for] loop of [setGlobalSettingsFromDataFile] over the rows still
    to visit, [i] being the index of the first of them. *)
Fixpoint settingsLoop (rows : list Matrix1000GlobalSettingDefinition) (i : nat)
    (settingsArray : list Z) (globalSettings_ : list TypedNamedValue)
    : Outcome (list TypedNamedValue) :=
  match rows with
  | [] => Returned globalSettings_
  | row :: rows' =>
      if (i <? length settingsArray)%nat then
        (b <- readAt settingsArray (sysexIndex row) ;;
         updated <- setValueAt globalSettings_ i (intValueOf row b) ;;
         settingsLoop rows' (S i) settingsArray updated)%outcome
      else settingsLoop rows' (S i) settingsArray globalSettings_
  end.

Definition sizeMismatchText : string :=
  "Ignoring Matrix1000 global settings data - unescaped block size is not 172 bytes".

(** The body of [setGlobalSettingsFromDataFile] once the data file has
    been unescaped into [settingsArray]. *)
Definition setGlobalSettingsFromArray (settingsArray : list Z)
    (globalSettings_ : list TypedNamedValue)
    : Traced (Outcome (list TypedNamedValue)) :=
  if Z.of_nat (length settingsArray) =? 172 then
    ret (settingsLoop kMatrix1000GlobalSettings 0 settingsArray globalSettings_)
  else
    (postMessage sizeMismatchText ;;;
     jassert (Z.of_nat (length settingsArray) =? 172) ;;;
     ret (Returned globalSettings_))%traced.

Definition setGlobalSettingsFromDataFile (dataFile : PatchData)
    (globalSettings_ : list TypedNamedValue)
    : Traced (Outcome (list TypedNamedValue)) :=
  match unescapeSysex dataFile with
  | Returned settingsArray => setGlobalSettingsFromArray settingsArray globalSettings_
  | OutOfBounds i => ret (OutOfBounds i)
  | OutOfFuel => ret OutOfFuel
  end.

(** The value a property currently holds, by position. *)
Definition valueOf (globalSettings_ : list TypedNamedValue) (i : nat) : option Z :=
  match nth_error globalSettings_ i with
  | Some s => value s
  | None => None
  end.

Definition nameOf (globalSettings_ : list TypedNamedValue) (i : nat) : option string :=
  option_map name (nth_error globalSettings_ i).

(* ================================================================== *)
(** ** Program dumps to the synth *)

Section ProgramNumbers.

(** The program number a patch reports before [setPatchNumber] was ever
    called is decided by the host framework's [MidiProgramNumber]; it is a
    parameter here. *)
Variable unsetProgramNumber : Z.

Definition midiProgramNumber (patch : Matrix1000Patch) : Z :=
  match number_ patch with
  | Some n => n
  | None => unsetProgramNumber
  end.

Definition patchToProgramDumpSysex (patch : Matrix1000Patch) : list MidiMessage :=
  let programNo := uint8 (Z.rem (midiProgramNumber patch) 100) in
  [sysexMessage ([OBERHEIM; MATRIX6_1000; SINGLE_PATCH_DATA; programNo]
                 ++ escapeSysex (data patch))].

End ProgramNumbers.

(* ================================================================== *)
(** ** Device detection *)

(** Modelled from the spec: [MidiChannel] is declared outside this
    repository; it is a zero-based channel or the invalid channel. *)
Record MidiChannel : Type := mkMidiChannel {
  channelNo_ : Z;
  isValidChannel : bool
}.

Definition channelFromZeroBase (zeroBasedNumber : Z) : MidiChannel :=
  mkMidiChannel zeroBasedNumber true.
Definition invalidChannel : MidiChannel := mkMidiChannel (-1) false.

Definition deviceDetectSleepMS : Z := 200.

Definition channelIfValidDeviceResponse (message : MidiMessage) : MidiChannel :=
  let data := getSysExData message in
  if getSysExDataSize message <? 3 then invalidChannel
  else if (getSysExDataSize message =? 13)
          && (byteAt data 0 =? 0x7e)
          && (byteAt data 2 =? 0x06)
          && (byteAt data 3 =? 0x02)
          && (byteAt data 4 =? OBERHEIM)
          && (byteAt data 5 =? MATRIX6_1000)
          && (byteAt data 6 =? 0x00)
          && (byteAt data 8 =? 0x00)
       then channelFromZeroBase (byteAt data 1)
       else invalidChannel.

(* ================================================================== *)
(** ** Patch names *)

(** Modelled from the spec: [Patch::at] and [Patch::setAt] belong to the
    base class outside this repository; they read and write one byte of
    the patch data by position, the position being unchecked. *)
Definition patchAt (patch : Matrix1000Patch) (i : Z) : Outcome Z :=
  readAt (data patch) i.

Definition setAt (patch : Matrix1000Patch) (i : Z) (v : Z) : Outcome Matrix1000Patch :=
  (_ <- readAt (data patch) i ;;
   Returned (mkMatrix1000Patch
               (firstn (Z.to_nat i) (data patch) ++ v :: skipn (S (Z.to_nat i)) (data patch))
               (number_ patch)))%outcome.

(** The loop of [Matrix1000Patch::name] with [count] characters still to
    read from position [i] on.  A character is kept as its code. *)
Fixpoint nameLoop (count : nat) (i : Z) (patch : Matrix1000Patch) (name : list Z)
    : Outcome (list Z) :=
  match count with
  | O => Returned name
  | S count' =>
      (charValue <- patchAt patch i ;;
       let charValue := if charValue <? 32 then charValue + (65 - 1) else charValue in
       nameLoop count' (i + 1) patch (name ++ [uint8 charValue]))%outcome
  end.

Definition patchName (patch : Matrix1000Patch) : Outcome (list Z) :=
  nameLoop 8 0 patch [].

(** What the converter of the ICU library hands back: the buffer
    [asciiResult] of 20 characters, the converted length and whether
    [U_SUCCESS] holds of the error code. *)
Record Converted : Type := mkConverted {
  asciiResult : list Z;
  convertedLength : Z;
  U_SUCCESS : bool
}.

(** The byte [setName] stores for the character [ch]. *)
Definition nameByte (ch : Z) : Z :=
  if ch =? 0x1a then 0x40
  else if ch >? 0x5f then uint8 (ch - 0x20)
  else if ch <? 0x20 then 0x5f
  else uint8 ch.

(** The loop of [Matrix1000Patch::setName] with [count] positions still
    to write from position [i] on. *)
Fixpoint setNameLoop (count : nat) (i : Z) (ascii : list Z) (len : Z)
    (patch : Matrix1000Patch) : Outcome Matrix1000Patch :=
  match count with
  | O => Returned patch
  | S count' =>
      (written <- (if i <? len
                   then (ch <- readAt ascii i ;; setAt patch i (nameByte ch))
                   else setAt patch i 0x20) ;;
       setNameLoop count' (i + 1) ascii len written)%outcome
  end.

Section SetName.

(** [ucnv_convert ("US-ASCII", "UTF-8", ...)] of the ICU library, applied to
    the bytes of the name. *)
Variable ucnv_convert : list Z -> Converted.

Definition setName (name : list Z) (patch : Matrix1000Patch)
    : Outcome Matrix1000Patch :=
  let converted := ucnv_convert name in
  if U_SUCCESS converted
  then setNameLoop 8 0 (asciiResult converted) (convertedLength converted) patch
  else Returned patch.

End SetName.

(* ================================================================== *)
(** ** Display names of programs and banks *)

Definition toOneBased (bankNo : MidiBankNumber) : Z := bankNo_ bankNo + 1.

Definition digitChar (d : Z) : Ascii.ascii := Ascii.ascii_of_N (Z.to_N (48 + d)).

(** The decimal digits of a number that is not negative, most significant
    first; [fuel] bounds the number of digits. *)
Fixpoint decimalDigits (fuel : nat) (n : Z) (digits : list Ascii.ascii)
    : list Ascii.ascii :=
  match fuel with
  | O => digits
  | S fuel' =>
      let digits := digitChar (n mod 10) :: digits in
      if n / 10 =? 0 then digits else decimalDigits fuel' (n / 10) digits
  end.

Definition zeroPad (width : nat) (digits : list Ascii.ascii) : list Ascii.ascii :=
  repeat (digitChar 0) (width - length digits) ++ digits.

(** Modelled from the spec: [boost::format ("%03d")] is outside this
    repository: a decimal number padded with zeros to three characters,
    the sign of a negative number counting as one of them. *)
Definition format03d (n : Z) : list Ascii.ascii :=
  if n <? 0
  then Ascii.ascii_of_N 45 :: zeroPad 2 (decimalDigits (Z.to_nat (- n)) (- n) [])
  else zeroPad 3 (decimalDigits (S (Z.to_nat n)) n []).

(** [Matrix1000PatchNumber::friendlyName] of a zero-based program number. *)
Definition friendlyName (programNumber : Z) : string :=
  string_of_list_ascii (format03d programNumber).

Definition friendlyBankName (bankNo : MidiBankNumber) : string :=
  string_of_list_ascii
    (format03d (toZeroBased bankNo * numberOfPatches)
     ++ list_ascii_of_string " - "
     ++ format03d (toOneBased bankNo * numberOfPatches - 1)).

(* ================================================================== *)
(** ** Reference descriptions used to state the properties *)

(** The bytes rebuilt from consecutive (low nibble, high nibble) pairs; a
    trailing unpaired byte contributes nothing. *)
Fixpoint pairsOf (wire : list Z) : list Z :=
  match wire with
  | lo :: hi :: rest => uint8 (Z.lor lo (Z.shiftl hi 4)) :: pairsOf rest
  | _ => []
  end.

(** The packed form in the specification's words: for each byte,
    [byte & 0x0F] then [(byte >> 4) & 0x0F]. *)
Definition nibblesOf (bytes : list Z) : list Z :=
  flat_map (fun b => [Z.land b 0x0f; Z.land (Z.shiftr b 4) 0x0f]) bytes.

(** The two nibbles as [escapeSysex] computes them. *)
Definition lowNibble (b : Z) : Z := uint8 (Z.land b 0x0f).
Definition highNibble (b : Z) : Z := uint8 (Z.shiftr (Z.land b 0xf0) 4).

(** Splitting a byte into its nibbles and joining them again. *)
Definition nibbleJoin (b : Z) : Z :=
  uint8 (Z.lor (lowNibble b) (Z.shiftl (highNibble b) 4)).

Definition sumBytes (bytes : list Z) : Z := fold_right Z.add 0 bytes.

(** The trailing byte of an odd-length wire buffer agrees with the 7-bit
    sum of the bytes its pairs decode to. *)
Definition checksumMatches (wire : list Z) : bool :=
  last wire 0 =? Z.land (uint8 (sumBytes (pairsOf wire))) 0x7f.

(** A single program dump for program [p] with wire payload [payload]. *)
Definition programDump (p : Z) (payload : list Z) : MidiMessage :=
  SysExMessage ([OBERHEIM; MATRIX6_1000; SINGLE_PATCH_DATA; p] ++ payload).

(** The program numbers a stream of messages covers. *)
Definition programNumbersSeen (bankDump : list MidiMessage) : list Z :=
  nodup Z.eq_dec
    (map (fun m => byteAt (getSysExData m) 3) (filter isSingleProgramDump bankDump)).

(** The stream of the specification's example: the dump of program 0
    twice, then the dumps of programs 1 to 99 (101 messages, 100 distinct
    program numbers). *)
Definition examplePayload : list Z := escapeSysex [0x41; 0x42].

Definition dumpsOf (programs : list nat) : list MidiMessage :=
  map (fun p => programDump (Z.of_nat p) examplePayload) programs.

Definition duplicatedStream : list MidiMessage :=
  programDump 0 examplePayload :: dumpsOf (seq 0 100).

(** A stream of 100 dumps that covers 99 program numbers only: program 0
    twice, then programs 1 to 98. *)
Definition shortStream : list MidiMessage :=
  programDump 0 examplePayload :: dumpsOf (seq 0 99).

(** A settings block of 172 bytes, all zero but byte 34, which is 0xFE. *)
Definition exampleSettingsBlock : list Z :=
  repeat 0 34 ++ [0xFE] ++ repeat 0 137.

(** The number byte of the data request that ends the messages built by
    [requestPatch]: byte 4 of the third message. *)
Definition requestNumberByte (messages : list MidiMessage) : Z :=
  byteAt (getSysExData (nth 2 messages defaultMidiMessage)) 4.

(** The four kinds a buffer is sorted into. *)
Definition kindUnrecognized (m : MidiMessage) : Prop := isOwnSysex m = false.
Definition kindEditBufferDump (m : MidiMessage) : Prop := isEditBufferDump m = true.
Definition kindSingleProgramDump (m : MidiMessage) : Prop := isSingleProgramDump m = true.
Definition kindOwnUnclassified (m : MidiMessage) : Prop :=
  isOwnSysex m = true /\ isEditBufferDump m = false /\ isSingleProgramDump m = false.

(** Exactly one of four propositions holds. *)
Definition exactlyOne (a b c d : Prop) : Prop :=
  (a /\ ~ b /\ ~ c /\ ~ d) \/ (~ a /\ b /\ ~ c /\ ~ d) \/
  (~ a /\ ~ b /\ c /\ ~ d) \/ (~ a /\ ~ b /\ ~ c /\ d).

(** Exactly one of three propositions holds. *)
Definition exactlyOneOf3 (a b c : Prop) : Prop :=
  (a /\ ~ b /\ ~ c) \/ (~ a /\ b /\ ~ c) \/ (~ a /\ ~ b /\ c).

(** A nibble is a value below 16; a byte on the MIDI wire is below 0x80. *)
Definition isNibble (x : Z) : Prop := 0 <= x < 16.
Definition isMidiData (x : Z) : Prop := 0 <= x < 128.

(** The settings after a decode, row by row: the property of every row
    holds the value computed from the byte at the row's offset. *)
Fixpoint decodeAll (rows : list Matrix1000GlobalSettingDefinition) (block : list Z)
    (settings : list TypedNamedValue) : list TypedNamedValue :=
  match rows, settings with
  | row :: rows', s :: settings' =>
      setValue s (intValueOf row (nth (Z.to_nat (sysexIndex row)) block 0))
      :: decodeAll rows' block settings'
  | _, _ => settings
  end.

(** The signed reading of a byte. *)
Definition signedByte (b : Z) : Z := if b <? 128 then b else b - 256.

(** A device inquiry response for [channel], with the family member byte
    and the four bytes of the firmware revision. *)
Definition inquiryResponse (channel member : Z) (firmware : list Z) : MidiMessage :=
  SysExMessage ([0x7e; channel; 0x06; 0x02; OBERHEIM; MATRIX6_1000; 0x00; member; 0x00]
                ++ firmware).

(** A converter for names that are plain ASCII already: the characters
    are copied into the buffer of 20, and conversion succeeds when they
    fit. *)
Definition asciiConverter (name : list Z) : Converted :=
  mkConverted (firstn 20 name ++ repeat 0 (20 - length name))
              (Z.of_nat (length name))
              (length name <=? 20)%nat.


(** The character [name] shows for the stored byte [b]. *)
Definition nameChar (b : Z) : Z := uint8 (if b <? 32 then b + (65 - 1) else b).

(** The byte [setName] stores at position [i]. *)
Definition storedAt (ascii : list Z) (len : Z) (i : nat) : Z :=
  if Z.of_nat i <? len then nameByte (nth i ascii 0) else 0x20.

(** The bytes a name may keep unchanged: the 6-bit range from the space
    to the underscore. *)
Definition isNameByte (b : Z) : Prop := 0x20 <= b <= 0x5f.

(** The bytes [setName] stores for a name: the byte of each of its first
    eight characters, then spaces up to eight. *)
Definition encodedName (ascii : list Z) (len : Z) : list Z :=
  map (storedAt ascii len) (seq 0 8).

(** A patch of ten zero bytes, and two names: one with a substitution
    character and lower case letters, one that is in the 6-bit range. *)
Definition blankPatch : Matrix1000Patch := newMatrix1000Patch (repeat 0 10).
Definition plainName : list Z := [66; 65; 83; 83; 32; 49].

(** Reading a string of decimal digits. *)
Definition parseDecimal (digits : list Ascii.ascii) : Z :=
  fold_left (fun acc c => 10 * acc + (Z.of_N (Ascii.N_of_ascii c) - 48)) digits 0.

Definition isDigit (c : Ascii.ascii) : bool :=
  (48 <=? Z.of_N (Ascii.N_of_ascii c)) && (Z.of_N (Ascii.N_of_ascii c) <=? 57).

(** What is checked of the display name of one program number. *)
Definition isThreeDigitNameOf (programNumber : Z) (text : string) : bool :=
  (length (list_ascii_of_string text) =? 3)%nat
  && forallb isDigit (list_ascii_of_string text)
  && (parseDecimal (list_ascii_of_string text) =? programNumber).

(** What is checked of the display name of one bank. *)
Definition isBankRangeOf (bank : Z) (text : string) : bool :=
  String.eqb text
    (friendlyName (100 * bank) ++ " - " ++ friendlyName (100 * bank + 99))%string.

(* ================================================================== *)
(** * Properties *)

(** ** Arithmetic of bytes and nibbles *)

Lemma uint8_range (x : Z) : is_uint8 (uint8 x).
Proof. unfold is_uint8, uint8. apply Z.mod_pos_bound. lia. Qed.

Lemma uint8_id (x : Z) : is_uint8 x -> uint8 x = x.
Proof. unfold is_uint8, uint8. intro H. apply Z.mod_small. exact H. Qed.

Lemma uint8_add_l (a b : Z) : uint8 (uint8 a + b) = uint8 (a + b).
Proof. unfold uint8. apply Zplus_mod_idemp_l. Qed.

Lemma uint8_as_nat (x : Z) :
  is_uint8 x -> exists n, (n < 256)%nat /\ x = Z.of_nat n.
Proof.
  intros [Hlo Hhi]. exists (Z.to_nat x). split; [lia | now rewrite Z2Nat.id].
Qed.

Lemma nibbleJoin_table :
  forallb (fun n => nibbleJoin (Z.of_nat n) =? Z.of_nat n) (seq 0 256) = true.
Proof. vm_compute. reflexivity. Qed.

Lemma nibbleJoin_id (b : Z) : is_uint8 b -> nibbleJoin b = b.
Proof.
  intros Hb. destruct (uint8_as_nat b Hb) as [n [Hn ->]].
  apply Z.eqb_eq.
  apply (proj1 (forallb_forall _ _) nibbleJoin_table n).
  apply in_seq. lia.
Qed.

Lemma land_7f_uint8 (s : Z) : Z.land (uint8 s) 0x7f = Z.land s 0x7f.
Proof.
  unfold uint8. change 0x7f with (Z.ones 7).
  rewrite !Z.land_ones by lia.
  apply Z.mod_mod_divide. exists 2. reflexivity.
Qed.

Lemma land_7f_range (s : Z) : is_uint8 (Z.land s 0x7f).
Proof.
  unfold is_uint8. change 0x7f with (Z.ones 7). rewrite Z.land_ones by lia.
  pose proof (Z.mod_pos_bound s (2 ^ 7)). lia.
Qed.

(* ------------------------------------------------------------------ *)
(** ** Reading a buffer *)

Lemma readAt_middle (pre suf : list Z) (x : Z) :
  readAt (pre ++ x :: suf) (Z.of_nat (length pre)) = Returned x.
Proof.
  unfold readAt.
  destruct (Z.ltb_spec (Z.of_nat (length pre)) 0) as [Hneg | _]; [lia |].
  rewrite Nat2Z.id, nth_error_app2 by lia.
  now rewrite Nat.sub_diag.
Qed.

Lemma readAt_past (buffer : list Z) (index : Z) :
  Z.of_nat (length buffer) <= index -> readAt buffer index = OutOfBounds index.
Proof.
  intro H. unfold readAt.
  destruct (Z.ltb_spec index 0) as [_ | Hpos]; [reflexivity |].
  destruct (nth_error buffer (Z.to_nat index)) eqn:E; [| reflexivity].
  assert (Hlt : (Z.to_nat index < length buffer)%nat)
    by (apply nth_error_Some; congruence).
  lia.
Qed.

Lemma readAt_second (pre suf : list Z) (x y : Z) :
  readAt (pre ++ x :: y :: suf) (Z.of_nat (length pre) + 1) = Returned y.
Proof.
  replace (pre ++ x :: y :: suf) with ((pre ++ [x]) ++ y :: suf)
    by (now rewrite <- app_assoc).
  replace (Z.of_nat (length pre) + 1) with (Z.of_nat (length (pre ++ [x])))
    by (rewrite length_app; simpl; lia).
  apply readAt_middle.
Qed.

Lemma readAt_third (pre suf : list Z) (x y c : Z) :
  readAt (pre ++ x :: y :: c :: suf) (Z.of_nat (length pre) + 2) = Returned c.
Proof.
  replace (pre ++ x :: y :: c :: suf) with ((pre ++ [x; y]) ++ c :: suf)
    by (now rewrite <- app_assoc).
  replace (Z.of_nat (length pre) + 2) with (Z.of_nat (length (pre ++ [x; y])))
    by (rewrite length_app; simpl; lia).
  apply readAt_middle.
Qed.

(* ------------------------------------------------------------------ *)
(** ** The loop of [unescapeSysex], one iteration at a time *)

Lemma unescapeLoop_exit (fuel : nat) (sysExData : list Z) (sysExLen index checksum : Z)
    (result : PatchData) :
  sysExLen <= index ->
  unescapeLoop fuel sysExData sysExLen index checksum result = Returned result.
Proof.
  intro H. destruct fuel; simpl;
    destruct (Z.ltb_spec index sysExLen); (lia || reflexivity).
Qed.

(** An iteration that is not followed by the checksum test. *)
Lemma unescapeLoop_pair (fuel : nat) (pre rest : list Z) (x y checksum : Z)
    (result : PatchData) :
  length rest <> 1%nat ->
  unescapeLoop (S fuel) (pre ++ x :: y :: rest)
      (Z.of_nat (length (pre ++ x :: y :: rest)))
      (Z.of_nat (length pre)) checksum result
  = unescapeLoop fuel ((pre ++ [x; y]) ++ rest)
      (Z.of_nat (length ((pre ++ [x; y]) ++ rest)))
      (Z.of_nat (length (pre ++ [x; y])))
      (uint8 (checksum + uint8 (Z.lor x (Z.shiftl y 4))))
      (result ++ [uint8 (Z.lor x (Z.shiftl y 4))]).
Proof.
  intro Hrest.
  cbn [unescapeLoop].
  rewrite readAt_middle, readAt_second. cbn [bindO].
  rewrite <- app_assoc. cbn [app].
  rewrite !length_app. cbn [length].
  destruct (Z.ltb_spec (Z.of_nat (length pre))
              (Z.of_nat (length pre + S (S (length rest))))) as [_ | Hge]; [| lia].
  destruct (Z.eqb_spec (Z.of_nat (length pre) + 2)
              (Z.of_nat (length pre + S (S (length rest))) - 1)) as [Heq | _]; [lia |].
  replace (Z.of_nat (length pre + 2)) with (Z.of_nat (length pre) + 2) by lia.
  reflexivity.
Qed.

(** The last iteration of an odd-length buffer, with the checksum test. *)
Lemma unescapeLoop_last (fuel : nat) (pre : list Z) (x y c checksum : Z)
    (result : PatchData) :
  unescapeLoop (S fuel) (pre ++ [x; y; c])
      (Z.of_nat (length (pre ++ [x; y; c])))
      (Z.of_nat (length pre)) checksum result
  = if c =? Z.land (uint8 (checksum + uint8 (Z.lor x (Z.shiftl y 4)))) 0x7f
    then Returned (result ++ [uint8 (Z.lor x (Z.shiftl y 4))])
    else Returned [].
Proof.
  cbn [unescapeLoop].
  rewrite readAt_middle, readAt_second. cbn [bindO].
  rewrite !length_app. cbn [length].
  destruct (Z.ltb_spec (Z.of_nat (length pre)) (Z.of_nat (length pre + 3)))
    as [_ | Hge]; [| lia].
  destruct (Z.eqb_spec (Z.of_nat (length pre) + 2) (Z.of_nat (length pre + 3) - 1))
    as [_ | Hne]; [| lia].
  rewrite readAt_third. cbn [bindO].
  destruct (c =? _); cbn [negb]; [| reflexivity].
  apply unescapeLoop_exit. lia.
Qed.

(** The only iteration of a one-byte buffer reads its second byte. *)
Lemma unescapeLoop_single (fuel : nat) (pre : list Z) (x checksum : Z)
    (result : PatchData) :
  unescapeLoop (S fuel) (pre ++ [x]) (Z.of_nat (length (pre ++ [x])))
      (Z.of_nat (length pre)) checksum result
  = OutOfBounds (Z.of_nat (length pre) + 1).
Proof.
  cbn [unescapeLoop].
  rewrite readAt_middle. cbn [bindO].
  rewrite readAt_past by (rewrite length_app; simpl; lia).
  rewrite length_app. cbn [length bindO].
  destruct (Z.ltb_spec (Z.of_nat (length pre)) (Z.of_nat (length pre + 1)))
    as [_ | Hge]; [reflexivity | lia].
Qed.

(* ------------------------------------------------------------------ *)
(** ** What [unescapeSysex] computes, by the shape of its input *)

Section PairInduction.
Variable P : list Z -> Prop.
Hypothesis P_nil : P [].
Hypothesis P_one : forall x, P [x].
Hypothesis P_pair : forall x y rest, P rest -> P (x :: y :: rest).

Lemma pair_induction : forall wire, P wire.
Proof.
  assert (both : forall wire, P wire /\ forall x, P (x :: wire)).
  { induction wire as [| y rest [IH1 IH2]]; split; intros; auto. }
  intro wire. apply both.
Qed.
End PairInduction.

Lemma sumBytes_cons_uint8 (checksum b : Z) (bytes : list Z) :
  uint8 (uint8 (checksum + b) + sumBytes bytes) = uint8 (checksum + sumBytes (b :: bytes)).
Proof.
  rewrite uint8_add_l. unfold sumBytes. cbn [fold_right].
  apply (f_equal uint8). lia.
Qed.

Lemma unescapeLoop_even_suffix (suf : list Z) :
  Nat.Even (length suf) ->
  forall fuel pre checksum result,
    (length suf <= 2 * fuel + 1)%nat ->
    unescapeLoop fuel (pre ++ suf) (Z.of_nat (length (pre ++ suf)))
        (Z.of_nat (length pre)) checksum result
    = Returned (result ++ pairsOf suf).
Proof.
  induction suf as [| x | x y rest IH] using pair_induction;
    intros Heven fuel pre checksum result Hfuel.
  - rewrite app_nil_r. cbn [pairsOf]. rewrite app_nil_r.
    apply unescapeLoop_exit. lia.
  - exfalso. destruct Heven as [k Hk]. simpl in Hk. lia.
  - assert (Hrest : Nat.Even (length rest)).
    { destruct Heven as [k Hk]. simpl in Hk. exists (k - 1)%nat. lia. }
    destruct fuel as [| fuel]; [simpl in Hfuel; lia |].
    rewrite unescapeLoop_pair.
    + rewrite IH; [| exact Hrest | simpl in Hfuel; lia].
      cbn [pairsOf]. now rewrite <- app_assoc.
    + destruct Hrest as [k Hk]. lia.
Qed.

Lemma unescapeLoop_odd_suffix (suf : list Z) :
  Nat.Odd (length suf) -> (3 <= length suf)%nat ->
  forall fuel pre checksum result,
    (length suf <= 2 * fuel + 1)%nat ->
    unescapeLoop fuel (pre ++ suf) (Z.of_nat (length (pre ++ suf)))
        (Z.of_nat (length pre)) checksum result
    = if last suf 0 =? Z.land (uint8 (checksum + sumBytes (pairsOf suf))) 0x7f
      then Returned (result ++ pairsOf suf)
      else Returned [].
Proof.
  induction suf as [| x | x y rest IH] using pair_induction;
    intros Hodd Hlen fuel pre checksum result Hfuel.
  - simpl in Hlen. lia.
  - simpl in Hlen. lia.
  - assert (Hrest : Nat.Odd (length rest)).
    { destruct Hodd as [k Hk]. simpl in Hk. exists (k - 1)%nat. lia. }
    destruct fuel as [| fuel]; [simpl in Hfuel; lia |].
    destruct rest as [| c rest'].
    { destruct Hrest as [k Hk]. simpl in Hk. lia. }
    destruct rest' as [| z rest''].
    + rewrite unescapeLoop_last.
      cbn [last pairsOf sumBytes fold_right]. rewrite Z.add_0_r. reflexivity.
    + rewrite unescapeLoop_pair by (simpl; lia).
      rewrite IH; [| exact Hrest | simpl; destruct Hrest as [k Hk]; simpl in Hk; lia
                   | simpl in Hfuel |- *; lia].
      change (last (x :: y :: c :: z :: rest'') 0) with (last (c :: z :: rest'') 0).
      change (pairsOf (x :: y :: c :: z :: rest''))
        with (uint8 (Z.lor x (Z.shiftl y 4)) :: pairsOf (c :: z :: rest'')).
      rewrite sumBytes_cons_uint8, <- app_assoc. reflexivity.
Qed.

Lemma unescapeSysex_empty : unescapeSysex [] = Returned [].
Proof. reflexivity. Qed.

Lemma unescapeSysex_single (x : Z) : unescapeSysex [x] = OutOfBounds 1.
Proof. exact (unescapeLoop_single 0 [] x 0 []). Qed.

Lemma unescapeSysex_even (wire : list Z) :
  Nat.Even (length wire) -> unescapeSysex wire = Returned (pairsOf wire).
Proof.
  intro Heven. unfold unescapeSysex.
  exact (unescapeLoop_even_suffix wire Heven (length wire) [] 0 [] ltac:(lia)).
Qed.

Lemma unescapeSysex_odd (wire : list Z) :
  Nat.Odd (length wire) -> (3 <= length wire)%nat ->
  unescapeSysex wire
  = if checksumMatches wire then Returned (pairsOf wire) else Returned [].
Proof.
  intros Hodd Hlen. unfold unescapeSysex, checksumMatches.
  exact (unescapeLoop_odd_suffix wire Hodd Hlen (length wire) [] 0 [] ltac:(lia)).
Qed.

(** The iteration budget of [unescapeSysex] is never used up. *)
Lemma unescapeSysex_terminates (wire : list Z) : unescapeSysex wire <> OutOfFuel.
Proof.
  destruct (Nat.Even_or_Odd (length wire)) as [Heven | Hodd].
  - rewrite unescapeSysex_even by exact Heven. discriminate.
  - destruct wire as [| x [| y rest]].
    + destruct Hodd as [k Hk]. simpl in Hk. lia.
    + rewrite unescapeSysex_single. discriminate.
    + rewrite unescapeSysex_odd; [| exact Hodd |].
      * destruct (checksumMatches _); discriminate.
      * destruct rest; [destruct Hodd as [k Hk]; simpl in Hk; lia | simpl; lia].
Qed.

(* ------------------------------------------------------------------ *)
(** ** What [escapeSysex] computes *)

Lemma nibbles_table :
  forallb (fun n => (lowNibble (Z.of_nat n) =? Z.land (Z.of_nat n) 0x0f)
                    && (highNibble (Z.of_nat n) =? Z.land (Z.shiftr (Z.of_nat n) 4) 0x0f))
          (seq 0 256) = true.
Proof. vm_compute. reflexivity. Qed.

Lemma nibbles_agree (b : Z) :
  is_uint8 b ->
  lowNibble b = Z.land b 0x0f /\ highNibble b = Z.land (Z.shiftr b 4) 0x0f.
Proof.
  intros Hb. destruct (uint8_as_nat b Hb) as [n [Hn ->]].
  pose proof (proj1 (forallb_forall _ _) nibbles_table n) as H.
  cbv beta in H. rewrite andb_true_iff, !Z.eqb_eq in H.
  apply H. apply in_seq. lia.
Qed.

Lemma escapeLoop_closed (programEditBuffer : list Z) :
  forall checksum result,
    escapeLoop programEditBuffer checksum result
    = result ++ flat_map (fun b => [lowNibble b; highNibble b]) programEditBuffer
        ++ [uint8 (Z.land (checksum + sumBytes programEditBuffer) 0x7f)].
Proof.
  induction programEditBuffer as [| b rest IH]; intros checksum result.
  - cbn [escapeLoop flat_map app]. unfold sumBytes. cbn [fold_right].
    now rewrite Z.add_0_r.
  - cbn [escapeLoop flat_map]. rewrite IH, <- !app_assoc.
    unfold sumBytes, lowNibble, highNibble. cbn [fold_right app].
    now rewrite Z.add_assoc.
Qed.

Lemma flat_map_nibbles (bytes : list Z) :
  Forall is_uint8 bytes ->
  flat_map (fun b => [lowNibble b; highNibble b]) bytes = nibblesOf bytes.
Proof.
  induction 1 as [| b rest Hb _ IH]; [reflexivity |].
  unfold nibblesOf. cbn [flat_map]. fold (nibblesOf rest). rewrite IH.
  destruct (nibbles_agree b Hb) as [-> ->]. reflexivity.
Qed.

Lemma escapeSysex_closed (bytes : list Z) :
  escapeSysex bytes
  = flat_map (fun b => [lowNibble b; highNibble b]) bytes
      ++ [Z.land (sumBytes bytes) 0x7f].
Proof.
  unfold escapeSysex. rewrite escapeLoop_closed. cbn [app].
  rewrite Z.add_0_l, uint8_id by apply land_7f_range. reflexivity.
Qed.

Lemma pairsOf_escaped (bytes : list Z) (c : Z) :
  Forall is_uint8 bytes ->
  pairsOf (flat_map (fun b => [lowNibble b; highNibble b]) bytes ++ [c]) = bytes.
Proof.
  induction 1 as [| b rest Hb _ IH]; [reflexivity |].
  cbn [flat_map app pairsOf]. rewrite IH.
  fold (nibbleJoin b). now rewrite nibbleJoin_id.
Qed.

Lemma length_escaped (bytes : list Z) (c : Z) :
  length (flat_map (fun b => [lowNibble b; highNibble b]) bytes ++ [c])
  = (2 * length bytes + 1)%nat.
Proof.
  induction bytes as [| b rest IH]; [reflexivity |].
  cbn [flat_map app length]. rewrite IH. lia.
Qed.

(* ================================================================== *)
(** * The nibble codec *)

(** The header example of the specification: [0x41, 0x42] packs to the
    nibbles [1, 4, 2, 4] followed by the checksum 3. *)
Example escapeSysex_example : escapeSysex [0x41; 0x42] = [1; 4; 2; 4; 3].
Proof. reflexivity. Qed.

Example unescapeSysex_example : unescapeSysex [1; 4; 2; 4; 3] = Returned [0x41; 0x42].
Proof. reflexivity. Qed.

(** C1. Round trip: for every non-empty sequence [b] of bytes (so for the
    sequences of the patch's fixed length), [escapeSysex b] is the low then
    high nibble of every byte followed by [(sum of bytes) & 0x7F], and
    [unescapeSysex] gives [b] back from it. *)
Theorem unescape_escape_roundtrip (b : PatchData) :
  b <> [] -> Forall is_uint8 b ->
  escapeSysex b = nibblesOf b ++ [Z.land (sumBytes b) 0x7f]
  /\ unescapeSysex (escapeSysex b) = Returned b.
Proof.
  intros Hne Hbytes. split.
  - rewrite escapeSysex_closed. now rewrite flat_map_nibbles.
  - rewrite escapeSysex_closed.
    set (c := Z.land (sumBytes b) 0x7f).
    rewrite unescapeSysex_odd.
    + unfold checksumMatches.
      rewrite last_last, pairsOf_escaped by exact Hbytes.
      rewrite land_7f_uint8. fold c. now rewrite Z.eqb_refl.
    + rewrite length_escaped. exists (length b). lia.
    + rewrite length_escaped. destruct b; [contradiction | simpl; lia].
Qed.

Lemma unescape_escape_roundtrip_witness :
  ([0x41; 0x42] <> [] /\ Forall is_uint8 [0x41; 0x42])
  /\ unescapeSysex (escapeSysex [0x41; 0x42]) = Returned [0x41; 0x42].
Proof.
  assert (Hne : [0x41; 0x42] <> []) by discriminate.
  assert (Hb : Forall is_uint8 [0x41; 0x42])
    by (repeat constructor; unfold is_uint8; lia).
  split; [split; assumption |].
  exact (proj2 (unescape_escape_roundtrip [0x41; 0x42] Hne Hb)).
Defined.

(** The empty sequence is outside the round trip: its packed form is the
    single checksum byte, and unpacking one byte reads past it. *)
Remark unescape_escape_empty : unescapeSysex (escapeSysex []) = OutOfBounds 1.
Proof. reflexivity. Qed.

(** C4, as stated, fails: the two-byte buffer [1, 4] is decoded to
    the byte 0x41 and returned. *)
Lemma even_length_is_decoded :
  Nat.Even (length [1; 4]) /\ unescapeSysex [1; 4] = Returned [0x41].
Proof. split; [exists 1%nat; reflexivity | reflexivity]. Qed.

Lemma length_pairsOf (wire : list Z) :
  length (pairsOf wire) = Nat.div2 (length wire).
Proof.
  induction wire as [| x | x y rest IH] using pair_induction;
    [reflexivity | reflexivity |].
  cbn [pairsOf length Nat.div2]. now rewrite IH.
Qed.

(** C4, amended. [unescapeSysex] does not look at the parity of the
    length: a buffer of even length [2n] is decoded into the [n] bytes of
    its nibble pairs and returned, no checksum being compared. *)
Theorem unescapeSysex_even_length (wire : list Z) :
  Nat.Even (length wire) ->
  unescapeSysex wire = Returned (pairsOf wire)
  /\ length (pairsOf wire) = Nat.div2 (length wire).
Proof.
  intro Heven. split; [now apply unescapeSysex_even | apply length_pairsOf].
Qed.

Lemma unescapeSysex_even_length_witness :
  Nat.Even (length [1; 4; 2; 4])
  /\ unescapeSysex [1; 4; 2; 4] = Returned (pairsOf [1; 4; 2; 4])
  /\ length (pairsOf [1; 4; 2; 4]) = Nat.div2 (length [1; 4; 2; 4]).
Proof.
  assert (Heven : Nat.Even (length [1; 4; 2; 4])) by (exists 2%nat; reflexivity).
  split; [exact Heven |].
  exact (unescapeSysex_even_length [1; 4; 2; 4] Heven).
Defined.

(** C10. [unescapeSysex] reads outside its buffer exactly for the inputs
    of length one, where it reads [sysExData[1]]; on every other input
    (empty, even length, odd length from three on) every read is inside
    the buffer and the function returns. *)
Theorem unescapeSysex_reads_in_bounds (wire : list Z) :
  (length wire = 1%nat -> unescapeSysex wire = OutOfBounds 1)
  /\ (length wire <> 1%nat -> exists bytes, unescapeSysex wire = Returned bytes).
Proof.
  split.
  - intro Hone. destruct wire as [| x [| y rest]]; try discriminate Hone.
    apply unescapeSysex_single.
  - intro Hlen.
    destruct (Nat.Even_or_Odd (length wire)) as [Heven | Hodd].
    + exists (pairsOf wire). now apply unescapeSysex_even.
    + assert (H3 : (3 <= length wire)%nat).
      { destruct Hodd as [k Hk]. destruct k; lia. }
      rewrite unescapeSysex_odd by assumption.
      destruct (checksumMatches wire); eauto.
Qed.

Lemma unescapeSysex_reads_in_bounds_witness :
  (length [7] = 1%nat /\ unescapeSysex [7] = OutOfBounds 1)
  /\ (length [1; 4; 0x41] <> 1%nat
      /\ exists bytes, unescapeSysex [1; 4; 0x41] = Returned bytes).
Proof.
  split.
  - split; [reflexivity |].
    exact (proj1 (unescapeSysex_reads_in_bounds [7]) eq_refl).
  - assert (Hlen : length [1; 4; 0x41] <> 1%nat) by discriminate.
    split; [exact Hlen |].
    exact (proj2 (unescapeSysex_reads_in_bounds [1; 4; 0x41]) Hlen).
Defined.

(* ================================================================== *)
(** * Failure reporting of the decoders *)

(** C6, as stated, fails: the buffer [1, 4, 0] carries a wrong checksum
    and is answered by the empty byte sequence, and a message that is no
    edit buffer dump is answered by a patch without data. *)
Lemma decode_failures_return_empty :
  (checksumMatches [1; 4; 0] = false /\ unescapeSysex [1; 4; 0] = Returned [])
  /\ (isEditBufferDump (SysExMessage [1; 2; 3]) = false
      /\ returned (patchFromSysex (SysExMessage [1; 2; 3]))
         = Returned (newMatrix1000Patch [])).
Proof. repeat split. Qed.

(** C6, amended. A decode failure is reported through an empty result,
    not through a failure of its own type: [unescapeSysex] answers a
    buffer of odd length from three on whose checksum byte does not match
    by the empty byte sequence, and [patchFromSysex] answers a message that
    is not an edit buffer dump by a patch with empty data, after a debug
    assertion; neither throws. *)
Theorem decode_failure_is_empty_result :
  (forall wire, Nat.Odd (length wire) -> (3 <= length wire)%nat ->
                checksumMatches wire = false ->
                unescapeSysex wire = Returned [])
  /\ (forall message, isEditBufferDump message = false ->
                      patchFromSysex message
                      = (Returned (newMatrix1000Patch []), [AssertionFailed])).
Proof.
  split.
  - intros wire Hodd Hlen Hsum.
    rewrite unescapeSysex_odd by assumption. now rewrite Hsum.
  - intros message Hkind. unfold patchFromSysex. now rewrite Hkind.
Qed.

Lemma decode_failure_is_empty_result_witness :
  ((Nat.Odd (length [1; 4; 0]) /\ (3 <= length [1; 4; 0])%nat
    /\ checksumMatches [1; 4; 0] = false)
   /\ unescapeSysex [1; 4; 0] = Returned [])
  /\ (isEditBufferDump (SysExMessage [1; 2; 3]) = false
      /\ patchFromSysex (SysExMessage [1; 2; 3])
         = (Returned (newMatrix1000Patch []), [AssertionFailed])).
Proof.
  assert (Hodd : Nat.Odd (length [1; 4; 0])) by (exists 1%nat; reflexivity).
  assert (Hlen : (3 <= length [1; 4; 0])%nat) by (simpl; lia).
  assert (Hsum : checksumMatches [1; 4; 0] = false) by reflexivity.
  assert (Hkind : isEditBufferDump (SysExMessage [1; 2; 3]) = false) by reflexivity.
  split.
  - split; [repeat split; assumption |].
    exact (proj1 decode_failure_is_empty_result [1; 4; 0] Hodd Hlen Hsum).
  - split; [exact Hkind |].
    exact (proj2 decode_failure_is_empty_result (SysExMessage [1; 2; 3]) Hkind).
Defined.

(* ================================================================== *)
(** * Message classification *)

Lemma isEditBufferDump_iff (m : MidiMessage) :
  isEditBufferDump m = true
  <-> isSingleProgramDump m = true /\ byteAt (getSysExData m) 3 = 0.
Proof.
  unfold isEditBufferDump, isSingleProgramDump.
  destruct (isOwnSysex m && (getSysExDataSize m >? 3)
            && (byteAt (getSysExData m) 2 =? SINGLE_PATCH_DATA)).
  - cbn [andb].
    destruct (Z.eqb_spec (byteAt (getSysExData m) 3) 0) as [H0 | H0].
    + rewrite H0. split; [split; reflexivity | reflexivity].
    + split; [discriminate | tauto].
  - cbn [andb]. split; [discriminate | intros [H _]; discriminate].
Qed.

Lemma isSingleProgramDump_own (m : MidiMessage) :
  isSingleProgramDump m = true -> isOwnSysex m = true.
Proof.
  unfold isSingleProgramDump. rewrite !andb_true_iff. tauto.
Qed.

(** C3, as stated, fails: the payload [0x10, 0x06, 0x01, 0x00] is an
    edit buffer dump and a single program dump at once, so it does not
    fall into exactly one of the four kinds. *)
Lemma edit_buffer_dump_is_program_dump :
  let m := SysExMessage [0x10; 0x06; 0x01; 0x00] in
  kindEditBufferDump m /\ kindSingleProgramDump m
  /\ ~ exactlyOne (kindEditBufferDump m) (kindSingleProgramDump m)
                  (kindOwnUnclassified m) (kindUnrecognized m).
Proof.
  cbv zeta.
  assert (He : kindEditBufferDump (SysExMessage [0x10; 0x06; 0x01; 0x00]))
    by reflexivity.
  assert (Hs : kindSingleProgramDump (SysExMessage [0x10; 0x06; 0x01; 0x00]))
    by reflexivity.
  split; [exact He | split; [exact Hs |]].
  unfold exactlyOne. tauto.
Qed.

(** C3, amended. Classification is total, and exclusive between three
    kinds: every buffer is exactly one of SingleProgramDump,
    OwnSysEx-but-unclassified and Unrecognized.  EditBufferDump is not a
    fourth, separate kind: a buffer is an EditBufferDump exactly when it is
    a SingleProgramDump whose program byte is 0, so every EditBufferDump is
    a SingleProgramDump as well. *)
Theorem classification_total_and_nested (m : MidiMessage) :
  exactlyOneOf3 (kindSingleProgramDump m) (kindOwnUnclassified m) (kindUnrecognized m)
  /\ (kindEditBufferDump m
      <-> kindSingleProgramDump m /\ byteAt (getSysExData m) 3 = 0).
Proof.
  split; [| apply isEditBufferDump_iff].
  unfold exactlyOneOf3, kindSingleProgramDump, kindOwnUnclassified, kindUnrecognized.
  pose proof (isSingleProgramDump_own m) as Hown.
  pose proof (proj1 (isEditBufferDump_iff m)) as Hedit.
  destruct (isSingleProgramDump m) eqn:Es.
  - left. rewrite (Hown eq_refl). repeat split; try discriminate.
    intros [_ [_ H]]. discriminate.
  - destruct (isOwnSysex m) eqn:Eo.
    + right; left. repeat split; try discriminate.
      destruct (isEditBufferDump m); [| reflexivity].
      destruct (Hedit eq_refl) as [H _]. discriminate.
    + right; right. repeat split; try discriminate.
      intros [H _]. discriminate.
Qed.

(* ================================================================== *)
(** * Bank dump completion *)

Lemma countPatchDumps_filter (bankDump : list MidiMessage) :
  forall found,
    countPatchDumps bankDump found
    = found + Z.of_nat (length (filter isSingleProgramDump bankDump)).
Proof.
  induction bankDump as [| message rest IH]; intro found.
  - simpl. lia.
  - cbn [countPatchDumps filter]. rewrite IH.
    destruct (isSingleProgramDump message); cbn [length]; lia.
Qed.

(** C2, as stated, fails in both directions: the stream with one
    duplicate and 100 distinct program numbers (101 dumps) is not judged
    complete, and a stream of 100 dumps covering only 99 program numbers
    is. *)
Lemma completion_counts_messages_not_programs :
  (length duplicatedStream = 101%nat
   /\ length (programNumbersSeen duplicatedStream) = 100%nat
   /\ isBankDumpFinished duplicatedStream = false)
  /\ (length shortStream = 100%nat
      /\ length (programNumbersSeen shortStream) = 99%nat
      /\ isBankDumpFinished shortStream = true).
Proof. vm_compute. repeat split. Qed.

(** C2, amended. Bank-dump completion is decided by the message count, not
    by the distinct program numbers seen: [isBankDumpFinished] holds
    exactly when the stream contains exactly 100 messages that are single
    program dumps, whatever their program numbers. *)
Theorem isBankDumpFinished_counts_dumps (bankDump : list MidiMessage) :
  isBankDumpFinished bankDump = true
  <-> length (filter isSingleProgramDump bankDump) = 100%nat.
Proof.
  unfold isBankDumpFinished, numberOfPatches.
  rewrite countPatchDumps_filter, Z.eqb_eq. lia.
Qed.

Lemma isBankDumpFinished_counts_dumps_witness :
  length (filter isSingleProgramDump (dumpsOf (seq 0 100))) = 100%nat
  /\ isBankDumpFinished (dumpsOf (seq 0 100)) = true.
Proof.
  assert (H : length (filter isSingleProgramDump (dumpsOf (seq 0 100))) = 100%nat)
    by (vm_compute; reflexivity).
  split; [exact H |].
  exact (proj2 (isBankDumpFinished_counts_dumps (dumpsOf (seq 0 100))) H).
Defined.

(* ================================================================== *)
(** * Request builders *)

Lemma quot_rem_in_range (programNumber : Z) :
  0 <= programNumber < 1000 ->
  uint8 (Z.quot programNumber 100) = programNumber / 100
  /\ uint8 (Z.rem programNumber 100) = programNumber mod 100.
Proof.
  intro H.
  rewrite Z.quot_div_nonneg, Z.rem_mod_nonneg by lia.
  pose proof (Z.mod_pos_bound programNumber 100 ltac:(lia)).
  assert (0 <= programNumber / 100 < 10)
    by (split; [apply Z.div_pos | apply Z.div_lt_upper_bound]; lia).
  split; apply uint8_id; unfold is_uint8; lia.
Qed.

Lemma range_check (programNumber : Z) :
  (programNumber >=? 0) && (programNumber <? 1000) = true
  <-> 0 <= programNumber < 1000.
Proof. rewrite andb_true_iff, Z.geb_le, Z.ltb_lt. tauto. Qed.

(** C7, as stated, fails: [saveEditBufferToProgram 1000] builds the wire
    message F0 10 06 0E 00 0A 00 F7 although 1000 is out of range. *)
Lemma out_of_range_program_is_emitted :
  ~ (0 <= 1000 < 1000)
  /\ returned (saveEditBufferToProgram 1000)
     = SysExMessage [0x10; 0x06; 0x0e; 0; 10; 0].
Proof. split; [lia | reflexivity]. Qed.

(** C7, amended. Only the bank number is validated by a guard:
    [createBankSelect] with an invalid bank raises a debug assertion and
    returns the default, empty message, which carries no bank-select bytes,
    and [requestBankDump] then builds no message at all.
    [saveEditBufferToProgram] checks its argument by a debug assertion
    only: for a program number in [0, 1000) it builds
    [10 06 0E slot bank 00] with no assertion raised, and for a program
    number outside the range the assertion is raised. *)
Theorem request_builders_validation :
  (forall bankNo, isValid bankNo = false ->
     createBankSelect bankNo = (defaultMidiMessage, [AssertionFailed])
     /\ getSysExData (returned (createBankSelect bankNo)) = []
     /\ requestBankDump bankNo = ([], []))
  /\ (forall programNumber, 0 <= programNumber < 1000 ->
        saveEditBufferToProgram programNumber
        = (sysexMessage [OBERHEIM; MATRIX6_1000; STORE_EDIT_BUFFER;
                         programNumber mod 100; programNumber / 100; 0], []))
  /\ (forall programNumber, ~ (0 <= programNumber < 1000) ->
        trace (saveEditBufferToProgram programNumber) = [AssertionFailed]).
Proof.
  split; [| split].
  - intros bankNo Hinvalid.
    unfold createBankSelect, requestBankDump. rewrite Hinvalid.
    repeat split.
  - intros programNumber Hrange.
    unfold saveEditBufferToProgram.
    rewrite (proj2 (range_check programNumber) Hrange).
    destruct (quot_rem_in_range programNumber Hrange) as [Hq Hr].
    cbn. now rewrite Hq, Hr.
  - intros programNumber Hout.
    unfold saveEditBufferToProgram.
    destruct ((programNumber >=? 0) && (programNumber <? 1000)) eqn:E.
    + apply range_check in E. contradiction.
    + reflexivity.
Qed.

Lemma request_builders_validation_witness :
  (isValid invalidBank = false
   /\ createBankSelect invalidBank = (defaultMidiMessage, [AssertionFailed])
   /\ requestBankDump invalidBank = ([], []))
  /\ (0 <= 345 < 1000
      /\ saveEditBufferToProgram 345
         = (sysexMessage [OBERHEIM; MATRIX6_1000; STORE_EDIT_BUFFER; 45; 3; 0], []))
  /\ (~ (0 <= 1000 < 1000)
      /\ trace (saveEditBufferToProgram 1000) = [AssertionFailed]).
Proof.
  assert (Hbank : isValid invalidBank = false) by reflexivity.
  assert (Hin : 0 <= 345 < 1000) by lia.
  assert (Hout : ~ (0 <= 1000 < 1000)) by lia.
  destruct request_builders_validation as [Hguard [Hsave Hassert]].
  split; [| split].
  - split; [exact Hbank |].
    destruct (Hguard invalidBank Hbank) as [H1 [_ H3]]. split; assumption.
  - split; [exact Hin |]. exact (Hsave 345 Hin).
  - split; [exact Hout |]. exact (Hassert 1000 Hout).
Defined.

(** C9. For every program number in [0, 1000), the data request built by
    [requestPatch] carries the low eight bits of the whole program number
    as its number byte (after the bank select for [programNumber / 100] and
    the bank unlock).  That byte is above 0x7F for every program number in
    [128, 256), and it differs from the slot [programNumber mod 100] for
    every program number from 100 on. *)
Theorem requestPatch_number_byte (programNumber : Z) :
  0 <= programNumber < 1000 ->
  requestPatch programNumber
  = ([sysexMessage [OBERHEIM; MATRIX6_1000; SET_BANK; programNumber / 100];
      createBankUnlock;
      sysexMessage [OBERHEIM; MATRIX6_1000; REQUEST_DATA; 0x01;
                    programNumber mod 256]], [])
  /\ requestNumberByte (returned (requestPatch programNumber)) = programNumber mod 256
  /\ (128 <= programNumber < 256 ->
      requestNumberByte (returned (requestPatch programNumber)) > 0x7f)
  /\ (100 <= programNumber ->
      requestNumberByte (returned (requestPatch programNumber)) <> programNumber mod 100).
Proof.
  intro Hrange.
  assert (Hmsgs : requestPatch programNumber
    = ([sysexMessage [OBERHEIM; MATRIX6_1000; SET_BANK; programNumber / 100];
        createBankUnlock;
        sysexMessage [OBERHEIM; MATRIX6_1000; REQUEST_DATA; 0x01;
                      programNumber mod 256]], [])).
  { unfold requestPatch.
    rewrite (proj2 (range_check programNumber) Hrange).
    destruct (quot_rem_in_range programNumber Hrange) as [Hq _].
    unfold createBankSelect, createRequest, fromZeroBase, toZeroBased.
    cbn. rewrite Hq.
    rewrite (uint8_id (programNumber / 100)), (uint8_id (uint8 programNumber));
      try apply uint8_range.
    - reflexivity.
    - rewrite <- Hq. apply uint8_range. }
  split; [exact Hmsgs |].
  rewrite Hmsgs. unfold requestNumberByte, returned. cbn.
  split; [reflexivity | split].
  - intro H. rewrite Z.mod_small by lia. lia.
  - intros H Heq.
    pose proof (Z.div_mod programNumber 256 ltac:(lia)) as H256.
    pose proof (Z.div_mod programNumber 100 ltac:(lia)) as H100.
    pose proof (Z.mod_pos_bound programNumber 256 ltac:(lia)).
    pose proof (Z.mod_pos_bound programNumber 100 ltac:(lia)).
    lia.
Qed.

Lemma requestPatch_number_byte_witness :
  (0 <= 200 < 1000 /\ 128 <= 200 < 256 /\ 100 <= 200)
  /\ requestNumberByte (returned (requestPatch 200)) = 200
  /\ requestNumberByte (returned (requestPatch 200)) > 0x7f
  /\ requestNumberByte (returned (requestPatch 200)) <> 200 mod 100.
Proof.
  assert (Hrange : 0 <= 200 < 1000) by lia.
  assert (Hhigh : 128 <= 200 < 256) by lia.
  assert (Hbank : 100 <= 200) by lia.
  destruct (requestPatch_number_byte 200 Hrange) as [_ [Hbyte [Hgt Hne]]].
  split; [repeat split; lia |].
  split; [exact Hbyte | split; [exact (Hgt Hhigh) | exact (Hne Hbank)]].
Defined.

(* ================================================================== *)
(** * Global settings *)

(** C8, as stated, fails: the table does not have 28 rows. *)
Lemma settings_table_has_not_28_rows :
  length kMatrix1000GlobalSettings <> 28%nat.
Proof. discriminate. Qed.

(** C8, amended. The static global-settings table contains exactly 27
    rows, one per named setting (no name occurs twice), each carrying a
    sysex offset inside the 172-byte block, a type, a range, the
    sign-handling flag and the display offset. *)
Theorem settings_table_rows :
  length kMatrix1000GlobalSettings = 27%nat
  /\ NoDup (map (fun row => name (typedNamedValue row)) kMatrix1000GlobalSettings)
  /\ Forall (fun row => 0 <= sysexIndex row < 172
                        /\ minValue (typedNamedValue row) <= maxValue (typedNamedValue row))
            kMatrix1000GlobalSettings.
Proof.
  split; [reflexivity | split].
  - set (names := map _ kMatrix1000GlobalSettings).
    assert (Hfixed : nodup string_dec names = names) by (vm_compute; reflexivity).
    rewrite <- Hfixed. apply NoDup_nodup.
  - unfold kMatrix1000GlobalSettings.
    repeat (constructor; [cbn; lia |]). constructor.
Qed.

Lemma readAt_in_range (buffer : list Z) (index : Z) :
  0 <= index < Z.of_nat (length buffer) ->
  exists b, readAt buffer index = Returned b
            /\ nth_error buffer (Z.to_nat index) = Some b.
Proof.
  intros [Hlo Hhi]. unfold readAt.
  destruct (Z.ltb_spec index 0) as [Hneg | _]; [lia |].
  destruct (nth_error buffer (Z.to_nat index)) as [b |] eqn:E.
  - exists b. split; reflexivity.
  - apply nth_error_None in E. lia.
Qed.

Lemma setValueAt_spec (globalSettings_ : list TypedNamedValue) :
  forall i v, (i < length globalSettings_)%nat ->
    exists updated,
      setValueAt globalSettings_ i v = Returned updated
      /\ length updated = length globalSettings_
      /\ valueOf updated i = Some v
      /\ nameOf updated i = nameOf globalSettings_ i
      /\ (forall j, j <> i -> nth_error updated j = nth_error globalSettings_ j).
Proof.
  induction globalSettings_ as [| s rest IH]; intros i v Hi;
    [simpl in Hi; lia |].
  destruct i as [| i].
  - exists (setValue s v :: rest). cbn [setValueAt].
    repeat split. intros [| j] Hj; [contradiction | reflexivity].
  - destruct (IH i v ltac:(simpl in Hi; lia)) as [rest' [Hset [Hlen [Hv [Hn Hother]]]]].
    exists (s :: rest'). cbn [setValueAt]. rewrite Hset. cbn [bindO].
    repeat split; try assumption.
    + simpl. now rewrite Hlen.
    + intros [| j] Hj; [reflexivity |]. cbn [nth_error]. apply Hother. lia.
Qed.

(** The loop never fails on rows whose offsets lie inside the block, and
    it leaves the properties before its first row untouched. *)
Lemma settingsLoop_spec (rows : list Matrix1000GlobalSettingDefinition) :
  forall i settingsArray globalSettings_,
    Forall (fun row => 0 <= sysexIndex row < Z.of_nat (length settingsArray)) rows ->
    (i + length rows <= length globalSettings_)%nat ->
    exists decoded,
      settingsLoop rows i settingsArray globalSettings_ = Returned decoded
      /\ length decoded = length globalSettings_
      /\ (forall j, (j < i)%nat -> nth_error decoded j = nth_error globalSettings_ j).
Proof.
  induction rows as [| row rows IH]; intros i settingsArray globalSettings_ Hrows Hlen.
  - exists globalSettings_. repeat split.
  - inversion Hrows as [| ? ? Hrow Hrest]; subst.
    cbn [settingsLoop]. cbn [length] in Hlen.
    destruct (i <? length settingsArray)%nat.
    + destruct (readAt_in_range settingsArray (sysexIndex row) Hrow) as [b [Hread _]].
      rewrite Hread. cbn [bindO].
      destruct (setValueAt_spec globalSettings_ i (intValueOf row b) ltac:(lia))
        as [updated [Hset [Hlen' [_ [_ Hother]]]]].
      rewrite Hset. cbn [bindO].
      destruct (IH (S i) settingsArray updated Hrest ltac:(lia))
        as [decoded [Hloop [Hlen'' Hbefore]]].
      exists decoded. split; [exact Hloop | split; [congruence |]].
      intros j Hj. rewrite Hbefore by lia. apply Hother. lia.
    + destruct (IH (S i) settingsArray globalSettings_ Hrest ltac:(lia))
        as [decoded [Hloop [Hlen'' Hbefore]]].
      exists decoded. split; [exact Hloop | split; [exact Hlen'' |]].
      intros j Hj. apply Hbefore. lia.
Qed.

Lemma settings_offsets_in_block :
  Forall (fun row => 0 <= sysexIndex row < 172) kMatrix1000GlobalSettings.
Proof.
  unfold kMatrix1000GlobalSettings.
  repeat (constructor; [cbn; lia |]). constructor.
Qed.

(** [setGlobalSettingsFromDataFile] is [setGlobalSettingsFromArray] on the
    block its data unescapes to. *)
Remark setGlobalSettingsFromDataFile_unescaped (dataFile block : list Z)
    (globalSettings_ : list TypedNamedValue) :
  unescapeSysex dataFile = Returned block ->
  setGlobalSettingsFromDataFile dataFile globalSettings_
  = setGlobalSettingsFromArray block globalSettings_.
Proof. intro H. unfold setGlobalSettingsFromDataFile. now rewrite H. Qed.

Lemma settings_table_head :
  exists row rows,
    kMatrix1000GlobalSettings = row :: rows
    /\ sysexIndex row = 34 /\ isTwosComplement row = true /\ displayOffset row = 0.
Proof. do 2 eexists. repeat split. Qed.

(** The first iteration of the loop decides the first property. *)
Lemma settingsLoop_first (row : Matrix1000GlobalSettingDefinition)
    (rows : list Matrix1000GlobalSettingDefinition)
    (settingsArray : list Z) (globalSettings_ : list TypedNamedValue) (b : Z) :
  (0 < length settingsArray)%nat ->
  readAt settingsArray (sysexIndex row) = Returned b ->
  Forall (fun row => 0 <= sysexIndex row < Z.of_nat (length settingsArray)) rows ->
  (1 + length rows <= length globalSettings_)%nat ->
  exists decoded,
    settingsLoop (row :: rows) 0 settingsArray globalSettings_ = Returned decoded
    /\ valueOf decoded 0 = Some (intValueOf row b)
    /\ nameOf decoded 0 = nameOf globalSettings_ 0.
Proof.
  intros Hblock Hread Hrows Hlen.
  cbn [settingsLoop].
  destruct (Nat.ltb_spec 0 (length settingsArray)) as [_ | Hge]; [| lia].
  rewrite Hread. cbn [bindO].
  destruct (setValueAt_spec globalSettings_ 0 (intValueOf row b) ltac:(lia))
    as [updated [Hset [Hlen' [Hvalue [Hname _]]]]].
  rewrite Hset. cbn [bindO].
  destruct (settingsLoop_spec rows 1 settingsArray updated Hrows ltac:(lia))
    as [decoded [Hloop [_ Hbefore]]].
  exists decoded. split; [exact Hloop |].
  unfold valueOf, nameOf in *. rewrite (Hbefore 0%nat ltac:(lia)).
  split; assumption.
Qed.

(** C5. Master Transpose is the first row of the table: offset 34, two's
    complement, display offset 0.  Decoding an unpacked block of exactly
    172 bytes whose byte 34 is 0xFE sets it to -2; decoding a block of any
    other length fails (a log line and a debug assertion) and leaves every
    settings field as it was. *)
Theorem settings_decode (block : list Z) (globalSettings_ : list TypedNamedValue) :
  (nameOf initGlobalSettings 0 = Some "Master Transpose"%string
   /\ option_map (fun row => (sysexIndex row, isTwosComplement row, displayOffset row))
                 (nth_error kMatrix1000GlobalSettings 0) = Some (34, true, 0))
  /\ (length globalSettings_ = length kMatrix1000GlobalSettings ->
      length block = 172%nat -> nth_error block 34 = Some 0xFE ->
      exists decoded,
        setGlobalSettingsFromArray block globalSettings_ = (Returned decoded, [])
        /\ valueOf decoded 0 = Some (-2)
        /\ nameOf decoded 0 = nameOf globalSettings_ 0)
  /\ (length block <> 172%nat ->
      setGlobalSettingsFromArray block globalSettings_
      = (Returned globalSettings_, [LogMessage sizeMismatchText; AssertionFailed])).
Proof.
  split; [split; reflexivity | split].
  - intros Hsettings Hblock Hbyte.
    assert (Hsize : Z.of_nat (length block) = 172) by (rewrite Hblock; reflexivity).
    unfold setGlobalSettingsFromArray. rewrite Hsize, Z.eqb_refl.
    pose proof settings_offsets_in_block as Hoffsets.
    rewrite <- Hsize in Hoffsets.
    destruct settings_table_head as [row [rows [Htable [Hindex [Hsigned Hoffset]]]]].
    rewrite Htable in Hoffsets, Hsettings |- *.
    inversion Hoffsets as [| row0 rows0 Hrow0 Hrows]; subst row0 rows0.
    assert (Hread : readAt block (sysexIndex row) = Returned 0xFE).
    { rewrite Hindex. unfold readAt. change (34 <? 0) with false. cbv iota.
      change (Z.to_nat 34) with 34%nat. now rewrite Hbyte. }
    assert (Hint : intValueOf row 0xFE = -2).
    { unfold intValueOf. rewrite Hsigned, Hoffset. reflexivity. }
    cbn [length] in Hsettings.
    destruct (settingsLoop_first row rows block globalSettings_ 0xFE
                ltac:(lia) Hread Hrows ltac:(lia))
      as [decoded [Hloop [Hvalue Hname]]].
    rewrite Hint in Hvalue.
    exists decoded. unfold ret. rewrite Hloop.
    split; [reflexivity | split; [exact Hvalue | exact Hname]].
  - intro Hlen. unfold setGlobalSettingsFromArray.
    destruct (Z.eqb_spec (Z.of_nat (length block)) 172) as [Heq | Hne]; [lia |].
    reflexivity.
Qed.

Lemma settings_decode_witness :
  ((length initGlobalSettings = length kMatrix1000GlobalSettings
    /\ length exampleSettingsBlock = 172%nat
    /\ nth_error exampleSettingsBlock 34 = Some 0xFE)
   /\ exists decoded,
        setGlobalSettingsFromArray exampleSettingsBlock initGlobalSettings
        = (Returned decoded, [])
        /\ valueOf decoded 0 = Some (-2)
        /\ nameOf decoded 0 = nameOf initGlobalSettings 0)
  /\ (length [1; 2; 3] <> 172%nat
      /\ setGlobalSettingsFromArray [1; 2; 3] initGlobalSettings
         = (Returned initGlobalSettings,
            [LogMessage sizeMismatchText; AssertionFailed])).
Proof.
  assert (Hsettings : length initGlobalSettings = length kMatrix1000GlobalSettings)
    by reflexivity.
  assert (Hblock : length exampleSettingsBlock = 172%nat) by reflexivity.
  assert (Hbyte : nth_error exampleSettingsBlock 34 = Some 0xFE) by reflexivity.
  assert (Hshort : length [1; 2; 3] <> 172%nat) by discriminate.
  split.
  - split; [repeat split; assumption |].
    exact (proj1 (proj2 (settings_decode exampleSettingsBlock initGlobalSettings))
             Hsettings Hblock Hbyte).
  - split; [exact Hshort |].
    exact (proj2 (proj2 (settings_decode [1; 2; 3] initGlobalSettings)) Hshort).
Defined.

(* ================================================================== *)
(** * More on the nibble codec *)

Lemma land_7f_bound (s : Z) : isMidiData (Z.land s 0x7f).
Proof.
  unfold isMidiData. change 0x7f with (Z.ones 7). rewrite Z.land_ones by lia.
  change (2 ^ 7) with 128. apply Z.mod_pos_bound. lia.
Qed.

Lemma lowNibble_bound (b : Z) : isNibble (lowNibble b).
Proof.
  unfold isNibble, lowNibble. change 0x0f with (Z.ones 4).
  rewrite Z.land_ones by lia. change (2 ^ 4) with 16.
  pose proof (Z.mod_pos_bound b 16 ltac:(lia)) as H.
  rewrite uint8_id by (unfold is_uint8; lia). exact H.
Qed.

Lemma highNibble_bound (b : Z) : isNibble (highNibble b).
Proof.
  unfold isNibble, highNibble. rewrite Z.shiftr_land.
  change (Z.shiftr 0xf0 4) with (Z.ones 4).
  rewrite Z.land_ones by lia. change (2 ^ 4) with 16.
  pose proof (Z.mod_pos_bound (Z.shiftr b 4) 16 ltac:(lia)) as H.
  rewrite uint8_id by (unfold is_uint8; lia). exact H.
Qed.

Lemma nibbles_are_midi_data (bytes : list Z) :
  Forall isMidiData (flat_map (fun b => [lowNibble b; highNibble b]) bytes).
Proof.
  induction bytes as [| b rest IH]; [constructor |].
  cbn [flat_map app].
  pose proof (lowNibble_bound b) as Hl. pose proof (highNibble_bound b) as Hh.
  unfold isNibble in Hl, Hh.
  repeat constructor; try lia. exact IH.
Qed.

(** X1. Whatever the bytes given, the packed form built by [escapeSysex]
    has two bytes per input byte plus one, and every byte of it is a MIDI
    data byte (below 0x80). *)
Theorem escapeSysex_is_midi_clean (bytes : PatchData) :
  length (escapeSysex bytes) = (2 * length bytes + 1)%nat
  /\ Forall isMidiData (escapeSysex bytes).
Proof.
  rewrite escapeSysex_closed. split.
  - apply length_escaped.
  - apply Forall_app. split; [apply nibbles_are_midi_data |].
    constructor; [apply land_7f_bound | constructor].
Qed.


Lemma pairsOf_nonempty (wire : list Z) :
  (2 <= length wire)%nat -> pairsOf wire <> [].
Proof.
  destruct wire as [| x [| y rest]]; simpl; intro H; try lia. discriminate.
Qed.




(** X4. On a buffer of odd length from three on, the empty result is an
    unambiguous failure signal: a matching checksum gives the non-empty
    sequence of the decoded pairs, and the result is empty exactly when
    the checksum does not match. *)
Theorem unescapeSysex_empty_iff_mismatch (wire : list Z) :
  Nat.Odd (length wire) -> (3 <= length wire)%nat ->
  (checksumMatches wire = true ->
     unescapeSysex wire = Returned (pairsOf wire) /\ pairsOf wire <> [])
  /\ (unescapeSysex wire = Returned [] <-> checksumMatches wire = false).
Proof.
  intros Hodd Hlen.
  pose proof (pairsOf_nonempty wire ltac:(lia)) as Hne.
  rewrite unescapeSysex_odd by assumption.
  destruct (checksumMatches wire).
  - split; [intros _; split; [reflexivity | exact Hne] |].
    split; [intro H; inversion H; congruence | discriminate].
  - split; [discriminate |]. split; reflexivity.
Qed.

Lemma unescapeSysex_empty_iff_mismatch_witness :
  (Nat.Odd (length [1; 4; 0x41]) /\ (3 <= length [1; 4; 0x41])%nat
   /\ checksumMatches [1; 4; 0x41] = true)
  /\ unescapeSysex [1; 4; 0x41] = Returned (pairsOf [1; 4; 0x41])
  /\ pairsOf [1; 4; 0x41] <> [].
Proof.
  assert (Hodd : Nat.Odd (length [1; 4; 0x41])) by (exists 1%nat; reflexivity).
  assert (Hlen : (3 <= length [1; 4; 0x41])%nat) by (simpl; lia).
  assert (Hsum : checksumMatches [1; 4; 0x41] = true) by reflexivity.
  split; [repeat split; assumption |].
  exact (proj1 (unescapeSysex_empty_iff_mismatch [1; 4; 0x41] Hodd Hlen) Hsum).
Defined.

Lemma split_joined_table :
  forallb (fun lo =>
    forallb (fun hi =>
      let b := uint8 (Z.lor (Z.of_nat lo) (Z.shiftl (Z.of_nat hi) 4)) in
      (lowNibble b =? Z.of_nat lo) && (highNibble b =? Z.of_nat hi))
      (seq 0 16))
    (seq 0 16) = true.
Proof. vm_compute. reflexivity. Qed.

Lemma split_joined (lo hi : Z) :
  isNibble lo -> isNibble hi ->
  lowNibble (uint8 (Z.lor lo (Z.shiftl hi 4))) = lo
  /\ highNibble (uint8 (Z.lor lo (Z.shiftl hi 4))) = hi.
Proof.
  intros Hlo Hhi. unfold isNibble in Hlo, Hhi.
  pose proof (proj1 (forallb_forall _ _) split_joined_table (Z.to_nat lo)
                ltac:(apply in_seq; lia)) as H.
  cbv beta in H.
  pose proof (proj1 (forallb_forall _ _) H (Z.to_nat hi)
                ltac:(apply in_seq; lia)) as H'.
  cbv beta zeta in H'. rewrite !Z2Nat.id in H' by lia.
  rewrite andb_true_iff, !Z.eqb_eq in H'. exact H'.
Qed.

Lemma pairsOf_app_single (nibbles : list Z) (c : Z) :
  Nat.Even (length nibbles) -> pairsOf (nibbles ++ [c]) = pairsOf nibbles.
Proof.
  induction nibbles as [| x | x y rest IH] using pair_induction; intro Heven.
  - reflexivity.
  - destruct Heven as [k Hk]. simpl in Hk. lia.
  - cbn [app pairsOf]. rewrite IH; [reflexivity |].
    destruct Heven as [k Hk]. simpl in Hk. exists (k - 1)%nat. lia.
Qed.

Lemma nibbles_of_pairs (nibbles : list Z) :
  Nat.Even (length nibbles) -> Forall isNibble nibbles ->
  flat_map (fun b => [lowNibble b; highNibble b]) (pairsOf nibbles) = nibbles.
Proof.
  induction nibbles as [| x | x y rest IH] using pair_induction;
    intros Heven Hnib.
  - reflexivity.
  - destruct Heven as [k Hk]. simpl in Hk. lia.
  - inversion Hnib as [| ? ? Hx Hrest]; subst.
    inversion Hrest as [| ? ? Hy Hrest']; subst.
    cbn [pairsOf flat_map app].
    destruct (split_joined x y Hx Hy) as [-> ->].
    rewrite IH; [reflexivity | | exact Hrest'].
    destruct Heven as [k Hk]. simpl in Hk. exists (k - 1)%nat. lia.
Qed.

(** X3. Packing undoes unpacking on canonical buffers: when a buffer is a
    non-empty even number of nibbles followed by the 7-bit sum of the bytes
    they pair up to, [unescapeSysex] returns those bytes and [escapeSysex]
    of them is the buffer again. *)
Theorem escape_unescape_canonical (nibbles : list Z) (c : Z) :
  nibbles <> [] -> Nat.Even (length nibbles) -> Forall isNibble nibbles ->
  c = Z.land (sumBytes (pairsOf nibbles)) 0x7f ->
  unescapeSysex (nibbles ++ [c]) = Returned (pairsOf nibbles)
  /\ escapeSysex (pairsOf nibbles) = nibbles ++ [c].
Proof.
  intros Hne Heven Hnib Hc. split.
  - assert (Hodd : Nat.Odd (length (nibbles ++ [c]))).
    { destruct Heven as [k Hk]. exists k. rewrite length_app. simpl. lia. }
    assert (Hlen : (3 <= length (nibbles ++ [c]))%nat).
    { rewrite length_app. simpl.
      destruct nibbles as [| x [| y rest]]; [contradiction | | simpl; lia].
      destruct Heven as [k Hk]. simpl in Hk. lia. }
    rewrite unescapeSysex_odd by assumption.
    unfold checksumMatches.
    rewrite last_last, pairsOf_app_single by exact Heven.
    rewrite land_7f_uint8, <- Hc, Z.eqb_refl. reflexivity.
  - rewrite escapeSysex_closed, nibbles_of_pairs by assumption.
    now rewrite Hc.
Qed.

Lemma escape_unescape_canonical_witness :
  ([1; 4; 2; 4] <> [] /\ Nat.Even (length [1; 4; 2; 4])
   /\ Forall isNibble [1; 4; 2; 4]
   /\ 3 = Z.land (sumBytes (pairsOf [1; 4; 2; 4])) 0x7f)
  /\ unescapeSysex ([1; 4; 2; 4] ++ [3]) = Returned (pairsOf [1; 4; 2; 4])
  /\ escapeSysex (pairsOf [1; 4; 2; 4]) = [1; 4; 2; 4] ++ [3].
Proof.
  assert (Hne : [1; 4; 2; 4] <> []) by discriminate.
  assert (Heven : Nat.Even (length [1; 4; 2; 4])) by (exists 2%nat; reflexivity).
  assert (Hnib : Forall isNibble [1; 4; 2; 4])
    by (repeat constructor; unfold isNibble; lia).
  assert (Hc : 3 = Z.land (sumBytes (pairsOf [1; 4; 2; 4])) 0x7f) by reflexivity.
  split; [repeat split; assumption |].
  exact (escape_unescape_canonical [1; 4; 2; 4] 3 Hne Heven Hnib Hc).
Defined.

(* ================================================================== *)
(** * Patches on the wire *)

(** How a message that starts with the Oberheim header is classified. *)
Lemma classify_header (command program : Z) (payload : list Z) :
  let m := SysExMessage (OBERHEIM :: MATRIX6_1000 :: command :: program :: payload) in
  isOwnSysex m = true
  /\ isEditBufferDump m = ((command =? SINGLE_PATCH_DATA) && (program =? 0))
  /\ isSingleProgramDump m
     = ((command =? SINGLE_PATCH_DATA) && (program >=? 0) && (program <? 100)).
Proof.
  cbv zeta.
  set (m := SysExMessage (OBERHEIM :: MATRIX6_1000 :: command :: program :: payload)).
  assert (Hsize1 : (getSysExDataSize m >? 1) = true).
  { apply Z.gtb_lt. unfold getSysExDataSize, m. cbn [getSysExData length]. lia. }
  assert (Hsize3 : (getSysExDataSize m >? 3) = true).
  { apply Z.gtb_lt. unfold getSysExDataSize, m. cbn [getSysExData length]. lia. }
  assert (Hown : isOwnSysex m = true).
  { unfold isOwnSysex. rewrite Hsize1. reflexivity. }
  unfold isEditBufferDump, isSingleProgramDump. rewrite Hown, Hsize3.
  repeat split.
Qed.

Lemma unescape_escaped (bytes : PatchData) :
  bytes <> [] -> Forall is_uint8 bytes ->
  unescapeSysex (escapeSysex bytes) = Returned bytes.
Proof.
  intros Hne Hbytes. rewrite escapeSysex_closed.
  rewrite unescapeSysex_odd.
  - unfold checksumMatches.
    rewrite last_last, pairsOf_escaped by exact Hbytes.
    now rewrite land_7f_uint8, Z.eqb_refl.
  - rewrite length_escaped. exists (length bytes). lia.
  - rewrite length_escaped. destruct bytes; [contradiction | simpl; lia].
Qed.

(** X5. An edit buffer dump as the synth sends it (command 0x01, program
    byte 0, then the packed patch) is decoded by [patchFromSysex] into a
    patch with exactly the packed bytes, without any assertion. *)
Theorem patchFromSysex_decodes_edit_buffer (bytes : PatchData) :
  bytes <> [] -> Forall is_uint8 bytes ->
  patchFromSysex (SysExMessage ([OBERHEIM; MATRIX6_1000; SINGLE_PATCH_DATA; 0x00]
                                ++ escapeSysex bytes))
  = (Returned (newMatrix1000Patch bytes), []).
Proof.
  intros Hne Hbytes. unfold patchFromSysex. cbn [app].
  destruct (classify_header SINGLE_PATCH_DATA 0 (escapeSysex bytes)) as [_ [Hedit _]].
  cbv zeta in Hedit. rewrite Hedit. cbn [Z.eqb andb negb Pos.eqb SINGLE_PATCH_DATA].
  cbn [getSysExData skipn].
  rewrite unescape_escaped by assumption. reflexivity.
Qed.

Lemma patchFromSysex_decodes_edit_buffer_witness :
  ([0x41; 0x42] <> [] /\ Forall is_uint8 [0x41; 0x42])
  /\ patchFromSysex (SysExMessage ([OBERHEIM; MATRIX6_1000; SINGLE_PATCH_DATA; 0x00]
                                   ++ escapeSysex [0x41; 0x42]))
     = (Returned (newMatrix1000Patch [0x41; 0x42]), []).
Proof.
  assert (Hne : [0x41; 0x42] <> []) by discriminate.
  assert (Hb : Forall is_uint8 [0x41; 0x42])
    by (repeat constructor; unfold is_uint8; lia).
  split; [split; assumption |].
  exact (patchFromSysex_decodes_edit_buffer [0x41; 0x42] Hne Hb).
Defined.

(** X6. The message [patchToSysex] builds for sending a patch to the edit
    buffer (command 0x0D) is the driver's own SysEx, but it is neither an
    edit buffer dump nor a program dump: handing it back to
    [patchFromSysex] raises the assertion and yields a patch with no data,
    whatever the patch was. *)
Theorem patchToSysex_is_not_a_dump (patch : Matrix1000Patch) :
  exists m,
    patchToSysex patch = [m]
    /\ isOwnSysex m = true
    /\ isEditBufferDump m = false
    /\ isSingleProgramDump m = false
    /\ patchFromSysex m = (Returned (newMatrix1000Patch []), [AssertionFailed]).
Proof.
  exists (SysExMessage (OBERHEIM :: MATRIX6_1000 :: SINGLE_PATCH_TO_EDIT_BUFFER
                        :: 0 :: escapeSysex (data patch))).
  split; [reflexivity |].
  destruct (classify_header SINGLE_PATCH_TO_EDIT_BUFFER 0 (escapeSysex (data patch)))
    as [Hown [Hedit Hdump]].
  cbv zeta in Hown, Hedit, Hdump.
  change (SINGLE_PATCH_TO_EDIT_BUFFER =? SINGLE_PATCH_DATA) with false in Hedit, Hdump.
  cbn [andb] in Hedit, Hdump.
  repeat split; try assumption.
  unfold patchFromSysex. now rewrite Hedit.
Qed.

(** X7. Program dump round trip: for a patch at program [n] (not
    negative) with non-empty data, [patchToProgramDumpSysex] builds one
    message, it is a single program dump, and [patchFromProgramDumpSysex]
    gets the data back; the program number comes back reduced to the slot
    [n mod 100], the bank being lost. *)
Theorem program_dump_roundtrip (unsetProgramNumber : Z) (patch : Matrix1000Patch)
    (n : Z) :
  number_ patch = Some n -> 0 <= n ->
  data patch <> [] -> Forall is_uint8 (data patch) ->
  exists m,
    patchToProgramDumpSysex unsetProgramNumber patch = [m]
    /\ isSingleProgramDump m = true
    /\ patchFromProgramDumpSysex m
       = Returned (Some (mkMatrix1000Patch (data patch) (Some (n mod 100)))).
Proof.
  intros Hnumber Hn Hne Hbytes.
  pose proof (Z.mod_pos_bound n 100 ltac:(lia)) as Hslot.
  exists (SysExMessage (OBERHEIM :: MATRIX6_1000 :: SINGLE_PATCH_DATA
                        :: n mod 100 :: escapeSysex (data patch))).
  split.
  { unfold patchToProgramDumpSysex, midiProgramNumber. rewrite Hnumber.
    rewrite Z.rem_mod_nonneg by lia.
    rewrite uint8_id by (unfold is_uint8; lia). reflexivity. }
  destruct (classify_header SINGLE_PATCH_DATA (n mod 100) (escapeSysex (data patch)))
    as [_ [_ Hdump]].
  cbv zeta in Hdump.
  assert (Hdump' : isSingleProgramDump
            (SysExMessage (OBERHEIM :: MATRIX6_1000 :: SINGLE_PATCH_DATA
                           :: n mod 100 :: escapeSysex (data patch))) = true).
  { rewrite Hdump, Z.eqb_refl. cbn [andb].
    apply andb_true_iff. split; [apply Z.geb_le | apply Z.ltb_lt]; lia. }
  split; [exact Hdump' |].
  unfold patchFromProgramDumpSysex. rewrite Hdump'.
  cbn [getSysExData skipn].
  rewrite unescape_escaped by assumption. reflexivity.
Qed.

Lemma program_dump_roundtrip_witness :
  (number_ (mkMatrix1000Patch [0x41; 0x42] (Some 345)) = Some 345 /\ 0 <= 345
   /\ data (mkMatrix1000Patch [0x41; 0x42] (Some 345)) <> []
   /\ Forall is_uint8 (data (mkMatrix1000Patch [0x41; 0x42] (Some 345))))
  /\ exists m,
       patchToProgramDumpSysex 0 (mkMatrix1000Patch [0x41; 0x42] (Some 345)) = [m]
       /\ isSingleProgramDump m = true
       /\ patchFromProgramDumpSysex m
          = Returned (Some (mkMatrix1000Patch [0x41; 0x42] (Some (345 mod 100)))).
Proof.
  assert (Hnumber : number_ (mkMatrix1000Patch [0x41; 0x42] (Some 345)) = Some 345)
    by reflexivity.
  assert (Hn : 0 <= 345) by lia.
  assert (Hne : data (mkMatrix1000Patch [0x41; 0x42] (Some 345)) <> [])
    by discriminate.
  assert (Hb : Forall is_uint8 (data (mkMatrix1000Patch [0x41; 0x42] (Some 345))))
    by (repeat constructor; unfold is_uint8; lia).
  split; [repeat split; assumption |].
  exact (program_dump_roundtrip 0 (mkMatrix1000Patch [0x41; 0x42] (Some 345)) 345
           Hnumber Hn Hne Hb).
Defined.

(* ================================================================== *)
(** * More on bank dump completion *)

Lemma dump_count_permutation (bankDump bankDump' : list MidiMessage) :
  Permutation bankDump bankDump' ->
  length (filter isSingleProgramDump bankDump)
  = length (filter isSingleProgramDump bankDump').
Proof.
  induction 1 as [| m l l' _ IH | m m' l | l l' l'' _ IH1 _ IH2].
  - reflexivity.
  - cbn [filter]. destruct (isSingleProgramDump m); cbn [length]; now rewrite IH.
  - cbn [filter].
    destruct (isSingleProgramDump m), (isSingleProgramDump m'); reflexivity.
  - now rewrite IH1.
Qed.

Lemma isBankDumpFinished_count (bankDump : list MidiMessage) :
  isBankDumpFinished bankDump
  = (Z.of_nat (length (filter isSingleProgramDump bankDump)) =? 100).
Proof.
  unfold isBankDumpFinished, numberOfPatches.
  now rewrite countPatchDumps_filter.
Qed.

(** X8. The verdict of [isBankDumpFinished] does not depend on the order
    of the messages, and messages that are no single program dumps do not
    influence it wherever they stand in the stream. *)
Theorem isBankDumpFinished_order_and_noise :
  (forall bankDump bankDump',
     Permutation bankDump bankDump' ->
     isBankDumpFinished bankDump = isBankDumpFinished bankDump')
  /\ (forall before after message,
        isSingleProgramDump message = false ->
        isBankDumpFinished (before ++ message :: after)
        = isBankDumpFinished (before ++ after)).
Proof.
  split.
  - intros bankDump bankDump' Hperm.
    rewrite !isBankDumpFinished_count.
    now rewrite (dump_count_permutation _ _ Hperm).
  - intros before after message Hother.
    rewrite !isBankDumpFinished_count, !filter_app.
    cbn [filter]. now rewrite Hother.
Qed.

Lemma isBankDumpFinished_order_and_noise_witness :
  (Permutation (createBankUnlock :: dumpsOf (seq 0 100))
               (dumpsOf (seq 0 100) ++ [createBankUnlock])
   /\ isBankDumpFinished (createBankUnlock :: dumpsOf (seq 0 100))
      = isBankDumpFinished (dumpsOf (seq 0 100) ++ [createBankUnlock]))
  /\ (isSingleProgramDump createBankUnlock = false
      /\ isBankDumpFinished (dumpsOf (seq 0 50) ++ createBankUnlock :: dumpsOf (seq 50 50))
         = isBankDumpFinished (dumpsOf (seq 0 50) ++ dumpsOf (seq 50 50))).
Proof.
  assert (Hperm : Permutation (createBankUnlock :: dumpsOf (seq 0 100))
                              (dumpsOf (seq 0 100) ++ [createBankUnlock]))
    by apply Permutation_cons_append.
  assert (Hother : isSingleProgramDump createBankUnlock = false) by reflexivity.
  split.
  - split; [exact Hperm |].
    exact (proj1 isBankDumpFinished_order_and_noise _ _ Hperm).
  - split; [exact Hother |].
    exact (proj2 isBankDumpFinished_order_and_noise
             (dumpsOf (seq 0 50)) (dumpsOf (seq 50 50)) createBankUnlock Hother).
Defined.

(** X9. Completion is lost by overshooting: once a stream is judged
    complete, the same stream followed by one more single program dump,
    and by anything after it, is not judged complete any more. *)
Theorem isBankDumpFinished_overshoot (bankDump rest : list MidiMessage)
    (message : MidiMessage) :
  isBankDumpFinished bankDump = true ->
  isSingleProgramDump message = true ->
  isBankDumpFinished (bankDump ++ message :: rest) = false.
Proof.
  rewrite !isBankDumpFinished_count, filter_app, length_app.
  intros Hdone Hdump. cbn [filter]. rewrite Hdump. cbn [length].
  apply Z.eqb_eq in Hdone. apply Z.eqb_neq. lia.
Qed.

Lemma isBankDumpFinished_overshoot_witness :
  (isBankDumpFinished (dumpsOf (seq 0 100)) = true
   /\ isSingleProgramDump (programDump 0 examplePayload) = true)
  /\ isBankDumpFinished (dumpsOf (seq 0 100) ++ programDump 0 examplePayload :: [])
     = false.
Proof.
  assert (Hdone : isBankDumpFinished (dumpsOf (seq 0 100)) = true)
    by (vm_compute; reflexivity).
  assert (Hdump : isSingleProgramDump (programDump 0 examplePayload) = true)
    by reflexivity.
  split; [split; assumption |].
  exact (isBankDumpFinished_overshoot (dumpsOf (seq 0 100)) []
           (programDump 0 examplePayload) Hdone Hdump).
Defined.

(* ================================================================== *)
(** * More on the request builders *)

(** X10. What the driver sends is never taken for a dump: the data
    requests, the bank unlock, the bank select of a valid bank and the
    store command are the driver's own SysEx, and none of them is a single
    program dump (so none is an edit buffer dump or a part of a bank dump
    either), whatever their arguments. *)
Theorem requests_are_not_dumps :
  (forall typeNo number,
     isOwnSysex (createRequest typeNo number) = true
     /\ isSingleProgramDump (createRequest typeNo number) = false)
  /\ (isOwnSysex createBankUnlock = true
      /\ isSingleProgramDump createBankUnlock = false)
  /\ (forall bankNo, isValid bankNo = true ->
        isOwnSysex (returned (createBankSelect bankNo)) = true
        /\ isSingleProgramDump (returned (createBankSelect bankNo)) = false)
  /\ (forall programNumber,
        isOwnSysex (returned (saveEditBufferToProgram programNumber)) = true
        /\ isSingleProgramDump (returned (saveEditBufferToProgram programNumber))
           = false).
Proof.
  split; [| split; [| split]].
  - intros typeNo number. unfold createRequest, sysexMessage.
    destruct (classify_header REQUEST_DATA (uint8 (requestTypeCode typeNo))
                [uint8 (if isSinglePatch typeNo then number else 0)])
      as [Hown [_ Hdump]].
    cbv zeta in Hown, Hdump. split; [exact Hown |].
    rewrite Hdump. reflexivity.
  - split; reflexivity.
  - intros bankNo Hvalid. unfold createBankSelect. rewrite Hvalid.
    unfold returned, ret, sysexMessage. cbn [negb fst].
    destruct (classify_header SET_BANK (uint8 (toZeroBased bankNo)) [])
      as [Hown [_ Hdump]].
    cbv zeta in Hown, Hdump. split; [exact Hown |].
    rewrite Hdump. reflexivity.
  - intro programNumber.
    unfold saveEditBufferToProgram, jassert, bindT, ret, returned, sysexMessage.
    cbn [fst].
    destruct (classify_header STORE_EDIT_BUFFER (uint8 (Z.rem programNumber 100))
                [uint8 (Z.quot programNumber 100); 0])
      as [Hown [_ Hdump]].
    cbv zeta in Hown, Hdump. split; [exact Hown |].
    rewrite Hdump. reflexivity.
Qed.

Lemma requests_are_not_dumps_witness :
  isValid (fromZeroBase 3) = true
  /\ isOwnSysex (returned (createBankSelect (fromZeroBase 3))) = true
  /\ isSingleProgramDump (returned (createBankSelect (fromZeroBase 3))) = false.
Proof.
  assert (Hvalid : isValid (fromZeroBase 3) = true) by reflexivity.
  split; [exact Hvalid |].
  exact (proj1 (proj2 (proj2 requests_are_not_dumps)) (fromZeroBase 3) Hvalid).
Defined.

(** X11. For a program number in [0, 1000), the store command of
    [saveEditBufferToProgram] consists of MIDI data bytes only, and its
    slot byte (below 100) and bank byte (below 10) give the program number
    back as [100 * bank + slot]. *)
Theorem saveEditBufferToProgram_addressing (programNumber : Z) :
  0 <= programNumber < 1000 ->
  let bytes := getSysExData (returned (saveEditBufferToProgram programNumber)) in
  Forall isMidiData bytes
  /\ 0 <= byteAt bytes 3 < 100
  /\ 0 <= byteAt bytes 4 < 10
  /\ 100 * byteAt bytes 4 + byteAt bytes 3 = programNumber.
Proof.
  intro Hrange. cbv zeta.
  unfold saveEditBufferToProgram.
  rewrite (proj2 (range_check programNumber) Hrange).
  destruct (quot_rem_in_range programNumber Hrange) as [Hq Hr].
  unfold jassert, bindT, ret, returned, sysexMessage.
  cbn [fst getSysExData].
  rewrite Hq, Hr. cbn [byteAt nth].
  pose proof (Z.mod_pos_bound programNumber 100 ltac:(lia)) as Hslot.
  pose proof (Z.div_mod programNumber 100 ltac:(lia)) as Hsplit.
  assert (Hbank : 0 <= programNumber / 100 < 10)
    by (split; [apply Z.div_pos | apply Z.div_lt_upper_bound]; lia).
  split; [| lia].
  unfold OBERHEIM, MATRIX6_1000, STORE_EDIT_BUFFER, isMidiData.
  repeat constructor; lia.
Qed.

Lemma saveEditBufferToProgram_addressing_witness :
  0 <= 345 < 1000
  /\ 100 * byteAt (getSysExData (returned (saveEditBufferToProgram 345))) 4
     + byteAt (getSysExData (returned (saveEditBufferToProgram 345))) 3 = 345.
Proof.
  assert (Hrange : 0 <= 345 < 1000) by lia.
  split; [exact Hrange |].
  exact (proj2 (proj2 (proj2 (saveEditBufferToProgram_addressing 345 Hrange)))).
Defined.

(* ================================================================== *)
(** * Device detection *)

(** X12. A device inquiry response is accepted whatever its family member
    byte and firmware revision, and the channel reported is its second
    byte; the inquiry the driver itself sends is never taken for a
    response; and a message that is accepted has 13 bytes of payload, with
    the fixed bytes of the response at positions 0, 2 to 6 and 8. *)
Theorem device_inquiry_responses :
  (forall channel member firmware,
     length firmware = 4%nat ->
     channelIfValidDeviceResponse (inquiryResponse channel member firmware)
     = channelFromZeroBase channel)
  /\ (forall channel,
        channelIfValidDeviceResponse (deviceDetect channel) = invalidChannel)
  /\ (forall message,
        isValidChannel (channelIfValidDeviceResponse message) = true ->
        getSysExDataSize message = 13
        /\ channelIfValidDeviceResponse message
           = channelFromZeroBase (byteAt (getSysExData message) 1)
        /\ map (byteAt (getSysExData message)) [0; 2; 3; 4; 5; 6; 8]%nat
           = [0x7e; 0x06; 0x02; OBERHEIM; MATRIX6_1000; 0x00; 0x00]).
Proof.
  split; [| split].
  - intros channel member firmware Hlen.
    destruct firmware as [| a [| b [| c [| d [| e rest]]]]]; try discriminate Hlen.
    reflexivity.
  - intro channel. reflexivity.
  - intros message. unfold channelIfValidDeviceResponse.
    destruct (getSysExDataSize message <? 3); [discriminate |].
    destruct (_ && _) eqn:Hfields; [| discriminate].
    intros _.
    repeat (apply andb_true_iff in Hfields; destruct Hfields as [Hfields ?]).
    repeat match goal with H : (_ =? _) = true |- _ => apply Z.eqb_eq in H end.
    cbn [map]. repeat split; congruence.
Qed.

Lemma device_inquiry_responses_witness :
  (length [1; 0; 1; 0] = 4%nat
   /\ channelIfValidDeviceResponse (inquiryResponse 5 2 [1; 0; 1; 0])
      = channelFromZeroBase 5)
  /\ (isValidChannel (channelIfValidDeviceResponse (inquiryResponse 5 2 [1; 0; 1; 0]))
      = true
      /\ getSysExDataSize (inquiryResponse 5 2 [1; 0; 1; 0]) = 13).
Proof.
  assert (Hlen : length [1; 0; 1; 0] = 4%nat) by reflexivity.
  assert (Hvalid : isValidChannel
            (channelIfValidDeviceResponse (inquiryResponse 5 2 [1; 0; 1; 0])) = true)
    by reflexivity.
  destruct device_inquiry_responses as [Haccept [_ Honly]].
  split.
  - split; [exact Hlen |]. exact (Haccept 5 2 [1; 0; 1; 0] Hlen).
  - split; [exact Hvalid |]. exact (proj1 (Honly _ Hvalid)).
Defined.

(* ================================================================== *)
(** * More on the global settings *)

Lemma readAt_nth (buffer : list Z) (index : Z) :
  0 <= index < Z.of_nat (length buffer) ->
  readAt buffer index = Returned (nth (Z.to_nat index) buffer 0).
Proof.
  intro Hrange.
  destruct (readAt_in_range buffer index Hrange) as [b [Hread Hnth]].
  rewrite Hread. f_equal. symmetry. now apply nth_error_nth.
Qed.

Lemma setValueAt_middle (before after : list TypedNamedValue)
    (s : TypedNamedValue) (v : Z) :
  setValueAt (before ++ s :: after) (length before) v
  = Returned (before ++ setValue s v :: after).
Proof.
  induction before as [| s0 before IH]; [reflexivity |].
  cbn [app length setValueAt]. rewrite IH. reflexivity.
Qed.

Lemma settingsLoop_decodeAll (rows : list Matrix1000GlobalSettingDefinition) :
  forall block before settings,
    Forall (fun row => 0 <= sysexIndex row < Z.of_nat (length block)) rows ->
    (length rows <= length settings)%nat ->
    (length before + length rows <= length block)%nat ->
    settingsLoop rows (length before) block (before ++ settings)
    = Returned (before ++ decodeAll rows block settings).
Proof.
  induction rows as [| row rows IH]; intros block before settings Hrows Hlen Hblock.
  - reflexivity.
  - inversion Hrows as [| ? ? Hrow Hrest]; subst.
    destruct settings as [| s settings]; [simpl in Hlen; lia |].
    cbn [length] in Hlen, Hblock.
    cbn [settingsLoop decodeAll].
    destruct (Nat.ltb_spec (length before) (length block)) as [_ | Hge]; [| lia].
    rewrite readAt_nth by exact Hrow. cbn [bindO].
    rewrite setValueAt_middle. cbn [bindO].
    replace (S (length before)) with (length (before ++ [setValue s
      (intValueOf row (nth (Z.to_nat (sysexIndex row)) block 0))]))
      by (rewrite length_app; simpl; lia).
    replace (before ++ setValue s (intValueOf row (nth (Z.to_nat (sysexIndex row)) block 0))
               :: settings)
      with ((before ++ [setValue s
               (intValueOf row (nth (Z.to_nat (sysexIndex row)) block 0))]) ++ settings)
      by (now rewrite <- app_assoc).
    rewrite IH; [now rewrite <- app_assoc | exact Hrest | lia |].
    rewrite length_app. simpl. lia.
Qed.

Lemma decodeAll_names (rows : list Matrix1000GlobalSettingDefinition) (block : list Z) :
  forall settings,
    map name (decodeAll rows block settings) = map name settings
    /\ map valueType (decodeAll rows block settings) = map valueType settings
    /\ map minValue (decodeAll rows block settings) = map minValue settings
    /\ map maxValue (decodeAll rows block settings) = map maxValue settings.
Proof.
  induction rows as [| row rows IH]; intros [| s settings];
    try (repeat split; reflexivity).
  cbn [decodeAll map].
  destruct (IH settings) as [-> [-> [-> ->]]]. repeat split.
Qed.

Lemma decodeAll_value (rows : list Matrix1000GlobalSettingDefinition) (block : list Z) :
  forall settings i row,
    (length rows <= length settings)%nat ->
    nth_error rows i = Some row ->
    valueOf (decodeAll rows block settings) i
    = Some (intValueOf row (nth (Z.to_nat (sysexIndex row)) block 0)).
Proof.
  induction rows as [| row0 rows IH]; intros settings i row Hlen Hi.
  - destruct i; discriminate Hi.
  - destruct settings as [| s settings]; [simpl in Hlen; lia |].
    destruct i as [| i].
    + injection Hi as <-. reflexivity.
    + cbn [decodeAll]. unfold valueOf. cbn [nth_error].
      apply (IH settings i row); [simpl in Hlen; lia | exact Hi].
Qed.

(** X13. Decoding a block of exactly 172 bytes into settings that have
    one property per row of the table never fails and raises nothing.
    Afterwards the property of every row holds the value computed from the
    block's byte at the row's offset, and the names, types and ranges of
    the properties are as before. *)
Theorem settings_decode_every_row (block : list Z)
    (globalSettings_ : list TypedNamedValue) :
  length block = 172%nat ->
  length globalSettings_ = length kMatrix1000GlobalSettings ->
  exists decoded,
    setGlobalSettingsFromArray block globalSettings_ = (Returned decoded, [])
    /\ (forall i row,
          nth_error kMatrix1000GlobalSettings i = Some row ->
          valueOf decoded i
          = Some (intValueOf row (nth (Z.to_nat (sysexIndex row)) block 0)))
    /\ map name decoded = map name globalSettings_
    /\ map valueType decoded = map valueType globalSettings_
    /\ map minValue decoded = map minValue globalSettings_
    /\ map maxValue decoded = map maxValue globalSettings_.
Proof.
  intros Hblock Hsettings.
  exists (decodeAll kMatrix1000GlobalSettings block globalSettings_).
  split; [| split].
  - assert (Hsize : Z.of_nat (length block) = 172) by (rewrite Hblock; reflexivity).
    unfold setGlobalSettingsFromArray. rewrite Hsize, Z.eqb_refl.
    pose proof settings_offsets_in_block as Hoffsets. rewrite <- Hsize in Hoffsets.
    pose proof (settingsLoop_decodeAll kMatrix1000GlobalSettings block []
                  globalSettings_ Hoffsets) as Hloop.
    cbn [app length] in Hloop. unfold ret. rewrite Hloop; [reflexivity | lia |].
    rewrite Hblock. change (length kMatrix1000GlobalSettings) with 27%nat. lia.
  - intros i row Hrow. apply decodeAll_value; [lia | exact Hrow].
  - apply decodeAll_names.
Qed.

Lemma settings_decode_every_row_witness :
  (length exampleSettingsBlock = 172%nat
   /\ length initGlobalSettings = length kMatrix1000GlobalSettings)
  /\ exists decoded,
       setGlobalSettingsFromArray exampleSettingsBlock initGlobalSettings
       = (Returned decoded, [])
       /\ map name decoded = map name initGlobalSettings.
Proof.
  assert (Hblock : length exampleSettingsBlock = 172%nat) by reflexivity.
  assert (Hsettings : length initGlobalSettings = length kMatrix1000GlobalSettings)
    by reflexivity.
  split; [split; assumption |].
  destruct (settings_decode_every_row exampleSettingsBlock initGlobalSettings
              Hblock Hsettings) as [decoded [Hrun [_ [Hnames _]]]].
  exists decoded. split; assumption.
Defined.

(** X14. From the wire to the settings: a packed settings dump of 172
    bytes is decoded row by row as its unpacked block is, with nothing
    raised; a dump of odd length from three on whose checksum does not
    match leaves all settings as they were and is reported by the log line
    and the assertion about the block size. *)
Theorem settings_from_data_file (globalSettings_ : list TypedNamedValue) :
  (forall block,
     length block = 172%nat -> Forall is_uint8 block ->
     length globalSettings_ = length kMatrix1000GlobalSettings ->
     setGlobalSettingsFromDataFile (escapeSysex block) globalSettings_
     = (Returned (decodeAll kMatrix1000GlobalSettings block globalSettings_), []))
  /\ (forall dataFile,
        Nat.Odd (length dataFile) -> (3 <= length dataFile)%nat ->
        checksumMatches dataFile = false ->
        setGlobalSettingsFromDataFile dataFile globalSettings_
        = (Returned globalSettings_, [LogMessage sizeMismatchText; AssertionFailed])).
Proof.
  split.
  - intros block Hblock Hbytes Hsettings.
    unfold setGlobalSettingsFromDataFile.
    rewrite unescape_escaped;
      [| intros ->; discriminate Hblock | exact Hbytes].
    assert (Hsize : Z.of_nat (length block) = 172) by (rewrite Hblock; reflexivity).
    unfold setGlobalSettingsFromArray. rewrite Hsize, Z.eqb_refl.
    pose proof settings_offsets_in_block as Hoffsets. rewrite <- Hsize in Hoffsets.
    pose proof (settingsLoop_decodeAll kMatrix1000GlobalSettings block []
                  globalSettings_ Hoffsets) as Hloop.
    cbn [app length] in Hloop. unfold ret. rewrite Hloop; [reflexivity | lia |].
    rewrite Hblock. change (length kMatrix1000GlobalSettings) with 27%nat. lia.
  - intros dataFile Hodd Hlen Hsum.
    unfold setGlobalSettingsFromDataFile.
    rewrite unescapeSysex_odd by assumption. rewrite Hsum.
    reflexivity.
Qed.

Lemma settings_from_data_file_witness :
  ((length exampleSettingsBlock = 172%nat /\ Forall is_uint8 exampleSettingsBlock
    /\ length initGlobalSettings = length kMatrix1000GlobalSettings)
   /\ setGlobalSettingsFromDataFile (escapeSysex exampleSettingsBlock) initGlobalSettings
      = (Returned (decodeAll kMatrix1000GlobalSettings exampleSettingsBlock
                     initGlobalSettings), []))
  /\ ((Nat.Odd (length [1; 4; 0]) /\ (3 <= length [1; 4; 0])%nat
       /\ checksumMatches [1; 4; 0] = false)
      /\ setGlobalSettingsFromDataFile [1; 4; 0] initGlobalSettings
         = (Returned initGlobalSettings,
            [LogMessage sizeMismatchText; AssertionFailed])).
Proof.
  assert (Hblock : length exampleSettingsBlock = 172%nat) by reflexivity.
  assert (Hbytes : Forall is_uint8 exampleSettingsBlock).
  { unfold exampleSettingsBlock. rewrite !Forall_app. repeat split.
    - apply Forall_forall. intros x Hx. apply repeat_spec in Hx. subst.
      unfold is_uint8. lia.
    - constructor; [unfold is_uint8; lia | constructor].
    - apply Forall_forall. intros x Hx. apply repeat_spec in Hx. subst.
      unfold is_uint8. lia. }
  assert (Hsettings : length initGlobalSettings = length kMatrix1000GlobalSettings)
    by reflexivity.
  assert (Hodd : Nat.Odd (length [1; 4; 0])) by (exists 1%nat; reflexivity).
  assert (Hlen : (3 <= length [1; 4; 0])%nat) by (simpl; lia).
  assert (Hsum : checksumMatches [1; 4; 0] = false) by reflexivity.
  destruct (settings_from_data_file initGlobalSettings) as [Hgood Hbad].
  split.
  - split; [repeat split; assumption |].
    exact (Hgood exampleSettingsBlock Hblock Hbytes Hsettings).
  - split; [repeat split; assumption |].
    exact (Hbad [1; 4; 0] Hodd Hlen Hsum).
Defined.

Lemma int8_of_high_byte (b : Z) : 127 < b < 256 -> int8 b = b - 256.
Proof.
  intro H. unfold int8.
  replace (b + 128) with (b - 128 + 1 * 256) by lia.
  rewrite Z.mod_add by lia. rewrite Z.mod_small by lia. lia.
Qed.

Lemma signed_rows_have_no_offset :
  Forall (fun row => isTwosComplement row = true -> displayOffset row = 0)
         kMatrix1000GlobalSettings.
Proof.
  unfold kMatrix1000GlobalSettings.
  repeat (constructor; [cbn; intro H; (reflexivity || discriminate H) |]).
  constructor.
Qed.

(** X15. Sign handling per row: for every row of the table and every
    byte, a two's complement row decodes the byte as a signed 8-bit value
    (between -128 and 127), and every other row decodes it as the byte
    plus the row's display offset; the declared range of the row plays no
    part. *)
Theorem intValueOf_table_row (row : Matrix1000GlobalSettingDefinition) (b : Z) :
  In row kMatrix1000GlobalSettings -> is_uint8 b ->
  (isTwosComplement row = true ->
     intValueOf row b = signedByte b /\ -128 <= intValueOf row b <= 127)
  /\ (isTwosComplement row = false -> intValueOf row b = b + displayOffset row).
Proof.
  intros Hin Hb. unfold is_uint8 in Hb.
  pose proof (proj1 (Forall_forall _ _) signed_rows_have_no_offset row Hin) as Hoff.
  split.
  - intro Hsigned. unfold intValueOf, signedByte.
    rewrite Hsigned, (Hoff Hsigned), Z.add_0_r.
    destruct (Z.gtb_spec b 127) as [Hhigh | Hlow];
      destruct (Z.ltb_spec b 128) as [Hlt | Hge];
      try rewrite int8_of_high_byte by lia; lia.
  - intro Hplain. unfold intValueOf. now rewrite Hplain.
Qed.

Lemma intValueOf_table_row_witness :
  (In (nth 1 kMatrix1000GlobalSettings (mkSetting 0 (tnv "" "" Integer 0 0) false 0))
      kMatrix1000GlobalSettings
   /\ is_uint8 0xE0)
  /\ intValueOf (nth 1 kMatrix1000GlobalSettings
                   (mkSetting 0 (tnv "" "" Integer 0 0) false 0)) 0xE0
     = signedByte 0xE0.
Proof.
  assert (Hin : In (nth 1 kMatrix1000GlobalSettings
                      (mkSetting 0 (tnv "" "" Integer 0 0) false 0))
                   kMatrix1000GlobalSettings)
    by (right; left; reflexivity).
  assert (Hb : is_uint8 0xE0) by (unfold is_uint8; lia).
  split; [split; assumption |].
  exact (proj1 (proj1 (intValueOf_table_row _ 0xE0 Hin Hb) eq_refl)).
Defined.

(* ================================================================== *)
(** * Patch names *)

Lemma nameLoop_spec (count : nat) :
  forall before rest number name,
    nameLoop count (Z.of_nat (length before))
             (mkMatrix1000Patch (before ++ rest) number) name
    = if (count <=? length rest)%nat
      then Returned (name ++ map nameChar (firstn count rest))
      else OutOfBounds (Z.of_nat (length (before ++ rest))).
Proof.
  induction count as [| count IH]; intros before rest number name.
  - cbn [nameLoop Nat.leb firstn map]. now rewrite app_nil_r.
  - cbn [nameLoop]. unfold patchAt. cbn [data].
    destruct rest as [| b rest].
    + rewrite app_nil_r, readAt_past by lia. reflexivity.
    + rewrite readAt_middle. cbn [bindO].
      replace (before ++ b :: rest) with ((before ++ [b]) ++ rest)
        by (now rewrite <- app_assoc).
      replace (Z.of_nat (length before) + 1) with (Z.of_nat (length (before ++ [b])))
        by (rewrite length_app; simpl; lia).
      rewrite IH. cbn [length Nat.leb firstn map].
      destruct (count <=? length rest)%nat; [| reflexivity].
      rewrite <- app_assoc. reflexivity.
Qed.



Lemma nameChar_id (b : Z) : 0x20 <= b < 256 -> nameChar b = b.
Proof.
  unfold nameChar. intro Hb.
  destruct (Z.ltb_spec b 32); [lia |]. apply uint8_id. unfold is_uint8. lia.
Qed.



Lemma setAt_middle (before rest : list Z) (b v : Z) (number : option Z) :
  setAt (mkMatrix1000Patch (before ++ b :: rest) number) (Z.of_nat (length before)) v
  = Returned (mkMatrix1000Patch (before ++ v :: rest) number).
Proof.
  unfold setAt. cbn [data number_]. rewrite readAt_middle. cbn [bindO].
  rewrite Nat2Z.id.
  rewrite firstn_app, Nat.sub_diag, firstn_all, app_nil_r.
  replace (S (length before)) with (length (before ++ [b]))
    by (rewrite length_app; simpl; lia).
  replace (before ++ b :: rest) with ((before ++ [b]) ++ rest)
    by (now rewrite <- app_assoc).
  rewrite skipn_app, Nat.sub_diag, skipn_all. reflexivity.
Qed.

Lemma setAt_past (bytes : list Z) (v : Z) (number : option Z) :
  setAt (mkMatrix1000Patch bytes number) (Z.of_nat (length bytes)) v
  = OutOfBounds (Z.of_nat (length bytes)).
Proof. unfold setAt. cbn [data]. now rewrite readAt_past by lia. Qed.

Lemma setNameLoop_spec (count : nat) :
  forall before rest number ascii len,
    (length before + count <= length ascii)%nat ->
    setNameLoop count (Z.of_nat (length before)) ascii len
                (mkMatrix1000Patch (before ++ rest) number)
    = if (count <=? length rest)%nat
      then Returned (mkMatrix1000Patch
                       (before ++ map (storedAt ascii len) (seq (length before) count)
                        ++ skipn count rest) number)
      else OutOfBounds (Z.of_nat (length (before ++ rest))).
Proof.
  induction count as [| count IH]; intros before rest number ascii len Hascii.
  - reflexivity.
  - cbn [setNameLoop].
    assert (Hread : readAt ascii (Z.of_nat (length before))
                    = Returned (nth (length before) ascii 0)).
    { rewrite readAt_nth by lia. now rewrite Nat2Z.id. }
    destruct rest as [| b rest].
    + rewrite app_nil_r. rewrite Hread. cbn [bindO].
      rewrite !setAt_past. destruct (_ <? len); reflexivity.
    + assert (Hwrite :
        (if Z.of_nat (length before) <? len
         then (ch <- readAt ascii (Z.of_nat (length before)) ;;
               setAt (mkMatrix1000Patch (before ++ b :: rest) number)
                     (Z.of_nat (length before)) (nameByte ch))%outcome
         else setAt (mkMatrix1000Patch (before ++ b :: rest) number)
                    (Z.of_nat (length before)) 0x20)
        = Returned (mkMatrix1000Patch
                      ((before ++ [storedAt ascii len (length before)]) ++ rest) number)).
      { unfold storedAt. rewrite Hread. cbn [bindO]. rewrite !setAt_middle.
        rewrite <- app_assoc. destruct (_ <? len); reflexivity. }
      rewrite Hwrite. cbn [bindO].
      replace (Z.of_nat (length before) + 1)
        with (Z.of_nat (length (before ++ [storedAt ascii len (length before)])))
        by (rewrite length_app; simpl; lia).
      rewrite IH by (rewrite length_app; simpl; lia).
      cbn [length Nat.leb skipn seq map].
      rewrite !length_app. cbn [length].
      replace (length before + 1)%nat with (S (length before)) by lia.
      destruct (count <=? length rest)%nat.
      * rewrite <- app_assoc. reflexivity.
      * do 2 f_equal. lia.
Qed.


Lemma nameByte_id (b : Z) : isNameByte b -> nameByte b = b.
Proof.
  unfold isNameByte, nameByte. intro Hb.
  destruct (Z.eqb_spec b 0x1a); [lia |].
  destruct (Z.gtb_spec b 0x5f); [lia |].
  destruct (Z.ltb_spec b 0x20); [lia |].
  apply uint8_id. unfold is_uint8. lia.
Qed.

Lemma length_encodedName (ascii : list Z) (len : Z) :
  length (encodedName ascii len) = 8%nat.
Proof. reflexivity. Qed.

Lemma patchName_of_stored (stored rest : list Z) (number : option Z) :
  length stored = 8%nat -> Forall isNameByte stored ->
  patchName (mkMatrix1000Patch (stored ++ rest) number) = Returned stored.
Proof.
  intros Hlen Hstored.
  pose proof (nameLoop_spec 8 [] (stored ++ rest) number []) as Hloop.
  cbn [app length Z.of_nat] in Hloop.
  fold (patchName (mkMatrix1000Patch (stored ++ rest) number)) in Hloop.
  rewrite Hloop.
  destruct (Nat.leb_spec 8 (length (stored ++ rest))) as [_ | Hlt];
    [| rewrite length_app in Hlt; lia].
  rewrite <- Hlen, firstn_app, Nat.sub_diag, firstn_all. cbn [firstn].
  rewrite app_nil_r. f_equal.
  rewrite <- (map_id stored) at 2. apply map_ext_Forall.
  eapply Forall_impl; [| exact Hstored].
  intros b Hb. cbv beta. unfold isNameByte in Hb.
  rewrite nameChar_id by lia. reflexivity.
Qed.

Lemma setName_run (ucnv_convert : list Z -> Converted) (name : list Z)
    (patch : Matrix1000Patch) :
  U_SUCCESS (ucnv_convert name) = true ->
  (8 <= length (asciiResult (ucnv_convert name)))%nat ->
  (8 <= length (data patch))%nat ->
  setName ucnv_convert name patch
  = Returned (mkMatrix1000Patch
                (encodedName (asciiResult (ucnv_convert name))
                             (convertedLength (ucnv_convert name))
                 ++ skipn 8 (data patch))
                (number_ patch)).
Proof.
  intros Hok Hascii Hdata. unfold setName. rewrite Hok.
  destruct patch as [bytes number]. cbn [data number_] in *.
  pose proof (setNameLoop_spec 8 [] bytes number
                (asciiResult (ucnv_convert name))
                (convertedLength (ucnv_convert name)) ltac:(simpl; lia)) as Hloop.
  cbn [app length Z.of_nat] in Hloop. rewrite Hloop.
  destruct (Nat.leb_spec 8 (length bytes)) as [_ | Hlt]; [reflexivity | lia].
Qed.




Lemma map_nth_seq (l : list Z) : map (fun i => nth i l 0) (seq 0 (length l)) = l.
Proof.
  induction l as [| x l IH]; [reflexivity |].
  cbn [length seq map nth]. f_equal.
  rewrite <- seq_shift, map_map. exact IH.
Qed.

Lemma encodedName_verbatim (ascii name : list Z) :
  (length name <= 8)%nat -> Forall isNameByte name ->
  firstn (length name) ascii = name ->
  encodedName ascii (Z.of_nat (length name))
  = name ++ repeat 0x20 (8 - length name).
Proof.
  intros Hlen Hname Hcopy. unfold encodedName.
  replace 8%nat with (length name + (8 - length name))%nat at 1 by lia.
  rewrite seq_app, map_app. f_equal.
  - transitivity (map (fun i => nth i name 0) (seq 0 (length name)));
      [| apply map_nth_seq].
    apply map_ext_in. intros i Hi. apply in_seq in Hi.
    unfold storedAt.
    destruct (Z.ltb_spec (Z.of_nat i) (Z.of_nat (length name))) as [_ | Hge]; [| lia].
    assert (Hnth : nth i ascii 0 = nth i name 0).
    { pose proof (nth_firstn (length name) ascii i 0) as Hfirst.
      rewrite Hcopy in Hfirst. rewrite Hfirst.
      destruct (Nat.ltb_spec i (length name)); [reflexivity | lia]. }
    rewrite Hnth. apply nameByte_id.
    apply (proj1 (Forall_forall _ _) Hname). apply nth_In. lia.
  - transitivity (map (fun _ : nat => 0x20) (seq (0 + length name) (8 - length name)));
      [| now rewrite map_const, length_seq].
    apply map_ext_in. intros i Hi. apply in_seq in Hi.
    unfold storedAt.
    destruct (Z.ltb_spec (Z.of_nat i) (Z.of_nat (length name))); [lia | reflexivity].
Qed.

(** X18. A name of at most eight characters that are all in the range
    0x20 to 0x5F, which the converter copies as it is, is stored
    verbatim, padded with spaces to eight bytes; the rest of the patch is
    kept and [name] reads the padded name back. *)
Theorem setName_name_roundtrip (ucnv_convert : list Z -> Converted)
    (name : list Z) (patch : Matrix1000Patch) :
  (length name <= 8)%nat -> Forall isNameByte name ->
  U_SUCCESS (ucnv_convert name) = true ->
  convertedLength (ucnv_convert name) = Z.of_nat (length name) ->
  (8 <= length (asciiResult (ucnv_convert name)))%nat ->
  firstn (length name) (asciiResult (ucnv_convert name)) = name ->
  (8 <= length (data patch))%nat ->
  let stored := name ++ repeat 0x20 (8 - length name) in
  setName ucnv_convert name patch
  = Returned (mkMatrix1000Patch (stored ++ skipn 8 (data patch)) (number_ patch))
  /\ patchName (mkMatrix1000Patch (stored ++ skipn 8 (data patch)) (number_ patch))
     = Returned stored.
Proof.
  intros Hlen Hname Hok Hconverted Hascii Hcopy Hdata. cbv zeta.
  rewrite <- (encodedName_verbatim _ name Hlen Hname Hcopy), <- Hconverted.
  split; [now apply setName_run |].
  apply patchName_of_stored; [reflexivity |].
  rewrite Hconverted, (encodedName_verbatim _ name Hlen Hname Hcopy).
  apply Forall_app. split; [exact Hname |].
  apply Forall_forall. intros b Hb. apply repeat_spec in Hb. subst b.
  unfold isNameByte. lia.
Qed.

Lemma setName_name_roundtrip_witness :
  ((length plainName <= 8)%nat
   /\ Forall isNameByte plainName)
  /\ setName asciiConverter plainName blankPatch
     = Returned (mkMatrix1000Patch ([66; 65; 83; 83; 32; 49; 32; 32] ++ [0; 0]) None)
  /\ patchName (mkMatrix1000Patch ([66; 65; 83; 83; 32; 49; 32; 32] ++ [0; 0]) None)
     = Returned [66; 65; 83; 83; 32; 49; 32; 32].
Proof.
  assert (Hlen : (length plainName <= 8)%nat) by (simpl; lia).
  assert (Hname : Forall isNameByte plainName)
    by (unfold plainName; repeat constructor; unfold isNameByte; lia).
  split; [split; assumption |].
  exact (setName_name_roundtrip asciiConverter plainName
           blankPatch Hlen Hname
           eq_refl eq_refl ltac:(vm_compute; lia) eq_refl ltac:(vm_compute; lia)).
Defined.

(* ================================================================== *)
(** * Display names *)

Lemma range_as_nat (bound : nat) (x : Z) :
  0 <= x < Z.of_nat bound -> exists n, In n (seq 0 bound) /\ x = Z.of_nat n.
Proof.
  intro H. exists (Z.to_nat x). split; [apply in_seq; lia | lia].
Qed.

Lemma friendlyName_table :
  forallb (fun n => isThreeDigitNameOf (Z.of_nat n) (friendlyName (Z.of_nat n)))
          (seq 0 1000) = true.
Proof. vm_compute. reflexivity. Qed.

(** X19. The display name of every program number in [0, 1000) consists
    of exactly three decimal digits, and they read as the program number:
    "000" for the first patch up to "999" for the last. *)
Theorem friendlyName_three_digits (programNumber : Z) :
  0 <= programNumber < 1000 ->
  length (list_ascii_of_string (friendlyName programNumber)) = 3%nat
  /\ forallb isDigit (list_ascii_of_string (friendlyName programNumber)) = true
  /\ parseDecimal (list_ascii_of_string (friendlyName programNumber)) = programNumber.
Proof.
  intro Hrange.
  destruct (range_as_nat 1000 programNumber Hrange) as [n [Hn ->]].
  pose proof (proj1 (forallb_forall _ _) friendlyName_table n Hn) as H.
  unfold isThreeDigitNameOf in H.
  rewrite !andb_true_iff, Nat.eqb_eq, Z.eqb_eq in H. tauto.
Qed.

Lemma friendlyName_three_digits_witness :
  0 <= 7 < 1000
  /\ length (list_ascii_of_string (friendlyName 7)) = 3%nat
  /\ forallb isDigit (list_ascii_of_string (friendlyName 7)) = true
  /\ parseDecimal (list_ascii_of_string (friendlyName 7)) = 7.
Proof.
  assert (Hrange : 0 <= 7 < 1000) by lia.
  split; [exact Hrange |].
  exact (friendlyName_three_digits 7 Hrange).
Defined.

Lemma friendlyBankName_table :
  forallb (fun n => isBankRangeOf (Z.of_nat n)
                      (friendlyBankName (fromZeroBase (Z.of_nat n))))
          (seq 0 10) = true.
Proof. vm_compute. reflexivity. Qed.

(** X20. The display name of each of the ten banks is the display name of
    its first program, " - ", and the display name of its last program:
    programs [100 * bank] and [100 * bank + 99]. *)
Theorem friendlyBankName_range (bank : Z) :
  0 <= bank < numberOfBanks ->
  friendlyBankName (fromZeroBase bank)
  = (friendlyName (100 * bank) ++ " - " ++ friendlyName (100 * bank + 99))%string.
Proof.
  intro Hrange.
  destruct (range_as_nat 10 bank Hrange) as [n [Hn ->]].
  pose proof (proj1 (forallb_forall _ _) friendlyBankName_table n Hn) as H.
  unfold isBankRangeOf in H. now apply String.eqb_eq in H.
Qed.

Lemma friendlyBankName_range_witness :
  0 <= 3 < numberOfBanks
  /\ friendlyBankName (fromZeroBase 3) = "300 - 399"%string.
Proof.
  assert (Hrange : 0 <= 3 < numberOfBanks) by (unfold numberOfBanks; lia).
  split; [exact Hrange |].
  exact (friendlyBankName_range 3 Hrange).
Defined.

(* ================================================================== *)
(** * Program dumps with a damaged payload *)

(** X21. [patchFromProgramDumpSysex] gives no patch (a null pointer) for
    a message that is not a single program dump; for a program dump whose
    payload has odd length from three on and a checksum that does not
    match it still gives a patch, with the program number of the dump and
    no data at all. *)
Theorem patchFromProgramDumpSysex_failures :
  (forall message, isSingleProgramDump message = false ->
                   patchFromProgramDumpSysex message = Returned None)
  /\ (forall program payload,
        0 <= program < 100 ->
        Nat.Odd (length payload) -> (3 <= length payload)%nat ->
        checksumMatches payload = false ->
        patchFromProgramDumpSysex (programDump program payload)
        = Returned (Some (mkMatrix1000Patch [] (Some program)))).
Proof.
  split.
  - intros message Hother. unfold patchFromProgramDumpSysex. now rewrite Hother.
  - intros program payload Hprogram Hodd Hlen Hsum.
    unfold patchFromProgramDumpSysex, programDump. cbn [app].
    destruct (classify_header SINGLE_PATCH_DATA program payload) as [_ [_ Hdump]].
    cbv zeta in Hdump. rewrite Hdump, Z.eqb_refl. cbn [andb].
    destruct (Z.geb_spec program 0) as [_ | Hneg]; [| lia].
    destruct (Z.ltb_spec program 100) as [_ | Hbig]; [| lia].
    cbn [andb getSysExData skipn].
    rewrite unescapeSysex_odd by assumption. rewrite Hsum. reflexivity.
Qed.

Lemma patchFromProgramDumpSysex_failures_witness :
  (isSingleProgramDump createBankUnlock = false
   /\ patchFromProgramDumpSysex createBankUnlock = Returned None)
  /\ ((0 <= 45 < 100 /\ Nat.Odd (length [1; 4; 0]) /\ (3 <= length [1; 4; 0])%nat
       /\ checksumMatches [1; 4; 0] = false)
      /\ patchFromProgramDumpSysex (programDump 45 [1; 4; 0])
         = Returned (Some (mkMatrix1000Patch [] (Some 45)))).
Proof.
  assert (Hother : isSingleProgramDump createBankUnlock = false) by reflexivity.
  assert (Hprogram : 0 <= 45 < 100) by lia.
  assert (Hodd : Nat.Odd (length [1; 4; 0])) by (exists 1%nat; reflexivity).
  assert (Hlen : (3 <= length [1; 4; 0])%nat) by (simpl; lia).
  assert (Hsum : checksumMatches [1; 4; 0] = false) by reflexivity.
  destruct patchFromProgramDumpSysex_failures as [Hnull Hempty].
  split.
  - split; [exact Hother | exact (Hnull createBankUnlock Hother)].
  - split; [split; [exact Hprogram | repeat split; assumption] |].
    exact (Hempty 45 [1; 4; 0] Hprogram Hodd Hlen Hsum).
Defined.
